(** * ddc-source-luasnip: a shallow embedding of [denops/@ddc-sources/luasnip.ts]

    The TypeScript source has three classes: [SnippetCache] (a per-filetype
    cache with a time-out), [LuaSnipInterface] (two remote calls through the
    denops bridge) and [Source] (the ddc source: [onInit], [gather], [params]
    and private helpers).  Each class is a module below; the methods keep
    their names.

    Modelling conventions.
    - A JavaScript string is a [string]: a sequence of 8-bit characters.
      [toLowerCase] and [trim] are the ASCII fragments of the JavaScript
      functions (letters [A]-[Z]; white space = TAB, LF, VT, FF, CR, SPACE).
    - A JavaScript [number] holding a count or a time in milliseconds is a
      [Z]; fractions, NaN and infinities are outside the model.
    - An optional field [f?: T] is an [option T]; [None] is [undefined].
    - [Map<string, CacheEntry>] is a [gmap string CacheEntry].
    - Awaited calls are sequential: a method is a function from the object
      state and the trace of effects so far to an outcome (a value or a
      thrown exception), the new state and the extended trace. *)

From Stdlib Require Import ZArith Lia Ascii.
From stdpp Require Import base option list gmap strings.

Local Open Scope Z_scope.

(** ** JavaScript strings and arrays *)

Module JS.

Definition is_upper (c : ascii) : bool :=
  let n := nat_of_ascii c in (65 <=? n)%nat && (n <=? 90)%nat.

Definition lower_char (c : ascii) : ascii :=
  if is_upper c then ascii_of_nat (nat_of_ascii c + 32) else c.

(** [String.prototype.toLowerCase] *)
Fixpoint toLowerCase (s : string) : string :=
  match s with
  | EmptyString => EmptyString
  | String c s' => String (lower_char c) (toLowerCase s')
  end.

Definition is_white (c : ascii) : bool :=
  let n := nat_of_ascii c in
  ((9 <=? n)%nat && (n <=? 13)%nat) || (n =? 32)%nat.

Fixpoint trimStart (s : string) : string :=
  match s with
  | EmptyString => EmptyString
  | String c s' => if is_white c then trimStart s' else s
  end.

Definition is_empty (s : string) : bool :=
  match s with EmptyString => true | String _ _ => false end.

Fixpoint trimEnd (s : string) : string :=
  match s with
  | EmptyString => EmptyString
  | String c s' =>
      let t := trimEnd s' in
      if is_white c && is_empty t then EmptyString else String c t
  end.

(** [String.prototype.trim] *)
Definition trim (s : string) : string := trimEnd (trimStart s).

(** [s.startsWith(p)] *)
Fixpoint startsWith (s p : string) {struct p} : bool :=
  match p, s with
  | EmptyString, _ => true
  | String _ _, EmptyString => false
  | String b p', String a s' => bool_decide (a = b) && startsWith s' p'
  end.

(** [s.includes(p)]: [p] occurs in [s] at some position. *)
Fixpoint includes (s p : string) : bool :=
  startsWith s p ||
  match s with
  | EmptyString => false
  | String _ s' => includes s' p
  end.

(** Truthiness of a string: every string but the empty one. *)
Definition truthy (s : string) : bool := negb (is_empty s).

(** Truthiness of an optional string field ([undefined] is falsy). *)
Definition truthy_opt (o : option string) : bool :=
  match o with Some s => truthy s | None => false end.

(** Truthiness of an optional boolean field. *)
Definition truthy_flag (o : option bool) : bool :=
  match o with Some b => b | None => false end.

(** [o || d] for an optional string [o]. *)
Definition or_else (o : option string) (d : string) : string :=
  match o with
  | Some s => if truthy s then s else d
  | None => d
  end.

(** [a.push(x)] *)
Definition push {A} (a : list A) (x : A) : list A := a ++ [x].

(** [a.join(sep)] on an array of strings. *)
Fixpoint join (sep : string) (a : list string) : string :=
  match a with
  | [] => EmptyString
  | [x] => x
  | x :: a' => x +:+ sep +:+ join sep a'
  end.

(** [a.slice(0, e)]: a negative [e] counts from the end of the array. *)
Definition slice0 {A} (a : list A) (e : Z) : list A :=
  let len := Z.of_nat (length a) in
  let final := if e <? 0 then Z.max (len + e) 0 else Z.min e len in
  take (Z.to_nat final) a.

End JS.

(** ** Data *)

(** [interface LuaSnipData] *)
Record LuaSnipData := {
  trigger : string;
  name : option string;
  description : option string;
  wordTrig : option bool;
  regTrig : option bool;
  filetype : string;
}.

(** [interface Params] *)
Record Params := {
  mark : string;
  dup : bool;
  maxCandidates : Z;
  enableCache : bool;
  cacheTimeout : Z;
  filetypes : list string;
  excludeFiletypes : list string;
  showCondition : bool;
  enableRegexTrigger : bool;
  debug : bool;
}.

(** [interface CacheEntry] *)
Record CacheEntry := {
  data : list LuaSnipData;
  timestamp : Z;
}.

(** [interface AnalyzeResult] *)
Module AnalyzeResult.
Record t := {
  shouldComplete : bool;
  filetype : string;
}.
End AnalyzeResult.

(** ddc's [Item], with the fields this source fills in. *)
Module Item.
Record t := {
  word : string;
  abbr : string;
  menu : string;
  info : string;
  kind : string;
  dup : bool;
}.
End Item.

(** ** Effects: exceptions, the console and the denops bridge *)

(** A thrown value: an [Error] object with its message, or anything else. *)
Inductive exn :=
| ErrorObject (message : string)
| Thrown.

Inductive outcome (A : Type) :=
| Ok (a : A)
| Throw (e : exn).
Arguments Ok {A} a.
Arguments Throw {A} e.

(** What the bridge hands back from [denops.call]: a JSON-like value.  An
    array is given the element type the source casts it to. *)
Inductive jsval :=
| JNull
| JBool (b : bool)
| JNum (n : Z)
| JStr (s : string)
| JArray (a : list LuaSnipData)
| JObject.

(** [Array.isArray(v) ? v as LuaSnipData[] : []] *)
Definition array_or_empty (v : jsval) : list LuaSnipData :=
  match v with JArray a => a | _ => [] end.

(** [Boolean(v)] *)
Definition Boolean (v : jsval) : bool :=
  match v with
  | JNull => false
  | JBool b => b
  | JNum n => negb (n =? 0)
  | JStr s => JS.truthy s
  | JArray _ => true
  | JObject => true
  end.

(** The bridge as the host hands it to one call of the source: how
    [denops.eval(expr)] and [denops.call(fn, arg)] answer. *)
Record Denops := {
  denops_eval : string -> outcome string;
  denops_call : string -> string -> outcome jsval;
}.

Inductive event :=
| EvalExpr (expr : string)
| Call (fn : string) (arg : string)
| ConsoleWarn (msg : string)
| ConsoleError (msg : string).

(** A method of an object with state [S]: state and trace in, outcome,
    state and trace out.  A throw keeps the state and the trace reached. *)
Definition M (S A : Type) : Type :=
  S -> list event -> outcome A * S * list event.

Definition ret {S A} (a : A) : M S A := fun s tr => (Ok a, s, tr).

Definition bind {S A B} (m : M S A) (k : A -> M S B) : M S B :=
  fun s tr =>
    match m s tr with
    | (Ok a, s', tr') => k a s' tr'
    | (Throw e, s', tr') => (Throw e, s', tr')
    end.

Definition throw {S A} (e : exn) : M S A := fun s tr => (Throw e, s, tr).

(** [try { m } catch (e) { h e }] *)
Definition try_catch {S A} (m : M S A) (h : exn -> M S A) : M S A :=
  fun s tr =>
    match m s tr with
    | (Ok a, s', tr') => (Ok a, s', tr')
    | (Throw e, s', tr') => h e s' tr'
    end.

Definition read {S} : M S S := fun s tr => (Ok s, s, tr).

Definition modify {S} (f : S -> S) : M S unit := fun s tr => (Ok tt, f s, tr).

Definition emit {S} (e : event) : M S unit := fun s tr => (Ok tt, s, tr ++ [e]).

(** Run a method of a field object inside the object that owns it. *)
Definition zoom {S T A} (get : S -> T) (set : T -> S -> S) (m : M T A) : M S A :=
  fun s tr =>
    match m (get s) tr with
    | (r, t', tr') => (r, set t' s, tr')
    end.

Declare Scope js_scope.
Delimit Scope js_scope with js.
Notation "x <- m ;; k" := (bind m (fun x => k))
  (at level 100, m at next level, right associativity) : js_scope.
Notation "m ;;; k" := (bind m (fun _ => k))
  (at level 100, right associativity) : js_scope.
Local Open Scope js_scope.

(** [await denops.eval(expr)] *)
Definition eval {S} (denops : Denops) (expr : string) : M S string :=
  fun s tr => (denops_eval denops expr, s, tr ++ [EvalExpr expr]).

(** [await denops.call(fn, arg)] *)
Definition call {S} (denops : Denops) (fn arg : string) : M S jsval :=
  fun s tr => (denops_call denops fn arg, s, tr ++ [Call fn arg]).

(** ** [class SnippetCache] *)

Module SnippetCache.

Record t := {
  cache : gmap string CacheEntry;
  timeout : Z;
}.

(** [constructor(timeout = 5000)] *)
Definition new (timeout : option Z) : t :=
  {| cache := ∅; timeout := default 5000 timeout |}.

Definition set_entry (filetype : string) (e : CacheEntry) (this : t) : t :=
  {| cache := <[filetype := e]> (cache this); timeout := timeout this |}.

(** [async get(filetype, fetcher)]; [now] is what [Date.now()] reads. *)
Definition get (now : Z) (filetype : string)
    (fetcher : M t (list LuaSnipData)) : M t (list LuaSnipData) :=
  this <- read;;
  let entry := cache this !! filetype in
  let refetch :=
    (data <- fetcher;;
     modify (set_entry filetype {| data := data; timestamp := now |});;;
     ret data) in
  match entry with
  | Some e =>
      if now - timestamp e <? timeout this then ret (data e) else refetch
  | None => refetch
  end.

(** [invalidate(filetype?)]: the empty string is falsy, like [undefined]. *)
Definition invalidate (filetype : option string) (this : t) : t :=
  if JS.truthy_opt filetype
  then {| cache := delete (default EmptyString filetype) (cache this);
          timeout := timeout this |}
  else {| cache := ∅; timeout := timeout this |}.

End SnippetCache.

(** ** [class LuaSnipInterface] *)

Module LuaSnipInterface.

Definition nl : string := String (ascii_of_nat 10) EmptyString.

(** The Lua chunk of [getSnippets], with [filetype] spliced in twice. *)
Definition getSnippets_luaCode (filetype : string) : string :=
  JS.join nl [
    EmptyString;
    "        local ok, luasnip = pcall(require, 'luasnip')";
    "        if not ok then";
    "          return {}";
    "        end";
    "        ";
    "        local snippets = {}";
    "        local snip_list = luasnip.get_snippets('" +:+ filetype +:+ "') or {}";
    "        ";
    "        for _, snip in ipairs(snip_list) do";
    "          table.insert(snippets, {";
    "            trigger = snip.trigger or '',";
    "            name = snip.name or '',";
    "            description = snip.dscr or '',";
    "            wordTrig = snip.wordTrig,";
    "            regTrig = snip.regTrig,";
    "            filetype = '" +:+ filetype +:+ "',";
    "          })";
    "        end";
    "        ";
    "        return snippets";
    "      " ].

(** The Lua chunk of [isLuaSnipAvailable]. *)
Definition isLuaSnipAvailable_luaCode : string :=
  JS.join nl [
    EmptyString;
    "        local ok, luasnip = pcall(require, 'luasnip')";
    "        return ok and luasnip ~= nil";
    "      " ].

(** [async getSnippets(denops, filetype)] *)
Definition getSnippets {S} (denops : Denops) (filetype : string)
    : M S (list LuaSnipData) :=
  try_catch
    (result <- call denops "luaeval" (getSnippets_luaCode filetype);;
     ret (array_or_empty result))
    (fun error =>
       emit (ConsoleError "[ddc-source-luasnip] Failed to get snippets:");;;
       ret []).

(** [async isLuaSnipAvailable(denops)] *)
Definition isLuaSnipAvailable {S} (denops : Denops) : M S bool :=
  try_catch
    (result <- call denops "luaeval" isLuaSnipAvailable_luaCode;;
     ret (Boolean result))
    (fun _ => ret false).

End LuaSnipInterface.

(** ** [class Source] *)

(** The part of ddc's [Context] that the source reads. *)
Record Context := {
  input : string;
}.

(** [GatherArguments<Params>] *)
Record GatherArguments := {
  denops : Denops;
  context : Context;
  sourceParams : Params;
}.

Module Source.

Record t := {
  cache : SnippetCache.t;
  isInitialized : bool;
}.

(** A fresh instance: the field initialisers of the class. *)
Definition new : t :=
  {| cache := SnippetCache.new None; isInitialized := false |}.

Definition set_cache (c : SnippetCache.t) (this : t) : t :=
  {| cache := c; isInitialized := isInitialized this |}.

Definition set_isInitialized (b : bool) (this : t) : t :=
  {| cache := cache this; isInitialized := b |}.

(** [async onInit(args)] *)
Definition onInit (denops : Denops) : M t unit :=
  isAvailable <- LuaSnipInterface.isLuaSnipAvailable denops;;
  if negb isAvailable then
    emit (ConsoleWarn
      "[ddc-source-luasnip] LuaSnip plugin is not available. Please install L3MON4D3/LuaSnip.")
  else
    modify (set_isInitialized true).

(** [params()] *)
Definition params : Params := {|
  mark := "[LS]";
  dup := false;
  maxCandidates := 500;
  enableCache := true;
  cacheTimeout := 5000;
  filetypes := [];
  excludeFiletypes := [];
  showCondition := true;
  enableRegexTrigger := true;
  debug := false;
|}.

(** [private async analyzeContext(denops, context)] *)
Definition analyzeContext (denops : Denops) (context : Context)
    : M t AnalyzeResult.t :=
  try_catch
    (filetype <- eval denops "&filetype";;
     ret {| AnalyzeResult.shouldComplete := true;
            AnalyzeResult.filetype :=
              if JS.truthy filetype then filetype else "all" |})
    (fun error =>
       emit (ConsoleError "[ddc-source-luasnip] Context analysis failed:");;;
       ret {| AnalyzeResult.shouldComplete := false;
              AnalyzeResult.filetype := EmptyString |}).

(** [a.includes(x)] on an array of strings *)
Definition array_includes (a : list string) (x : string) : bool :=
  bool_decide (x ∈ a).

(** [private async getSnippets(denops, filetype, sourceParams)] *)
Definition getSnippets (now : Z) (denops : Denops) (filetype : string)
    (sourceParams : Params) : M t (list LuaSnipData) :=
  if (0 <? Z.of_nat (length (filetypes sourceParams)))
     && negb (array_includes (filetypes sourceParams) filetype)
  then ret []
  else if array_includes (excludeFiletypes sourceParams) filetype
  then ret []
  else if enableCache sourceParams
  then zoom cache set_cache
         (SnippetCache.get now filetype
            (LuaSnipInterface.getSnippets denops filetype))
  else LuaSnipInterface.getSnippets denops filetype.

(** The callback of [snippets.filter] in [filterSnippets]. *)
Definition filter_callback (inputLower : string) (snippet : LuaSnipData) : bool :=
  if JS.startsWith (JS.toLowerCase (trigger snippet)) inputLower then true
  else if JS.truthy_opt (name snippet)
          && JS.includes (JS.toLowerCase (default EmptyString (name snippet)))
               inputLower
  then true
  else false.

(** [private filterSnippets(snippets, input)] *)
Definition filterSnippets (snippets : list LuaSnipData) (input : string)
    : list LuaSnipData :=
  if negb (JS.truthy (JS.trim input)) then snippets
  else
    let inputLower := JS.toLowerCase input in
    List.filter (filter_callback inputLower) snippets.

(** [private buildInfoText(snippet)] *)
Definition buildInfoText (snippet : LuaSnipData) : string :=
  let parts : list string := [] in
  let parts := JS.push parts ("Trigger: " +:+ trigger snippet) in
  let parts :=
    if JS.truthy_opt (name snippet)
    then JS.push parts ("Name: " +:+ default EmptyString (name snippet))
    else parts in
  let parts :=
    if JS.truthy_opt (description snippet)
    then JS.push parts
           ("Description: " +:+ default EmptyString (description snippet))
    else parts in
  let parts := JS.push parts ("Filetype: " +:+ filetype snippet) in
  let flags : list string := [] in
  let flags :=
    if JS.truthy_flag (wordTrig snippet) then JS.push flags "word trigger"
    else flags in
  let flags :=
    if JS.truthy_flag (regTrig snippet) then JS.push flags "regex trigger"
    else flags in
  let parts :=
    if (0 <? Z.of_nat (length flags))
    then JS.push parts ("Flags: " +:+ JS.join ", " flags)
    else parts in
  JS.join LuaSnipInterface.nl parts.

(** The callback of [snippets.map] in [convertToItems]. *)
Definition convert_callback (sourceParams : Params) (snippet : LuaSnipData)
    : Item.t := {|
  Item.word := trigger snippet;
  Item.abbr := JS.or_else (name snippet) (trigger snippet);
  Item.menu :=
    JS.trim (mark sourceParams +:+ " "
             +:+ JS.or_else (description snippet) EmptyString);
  Item.info := buildInfoText snippet;
  Item.kind := "Snippet";
  Item.dup := dup sourceParams;
|}.

(** [private convertToItems(snippets, sourceParams)] *)
Definition convertToItems (snippets : list LuaSnipData) (sourceParams : Params)
    : list Item.t :=
  List.map (convert_callback sourceParams) snippets.

(** [private handleError(error)] *)
Definition handleError (error : exn) : M t unit :=
  match error with
  | ErrorObject message =>
      if JS.includes message "LuaSnip not found" then
        emit (ConsoleWarn "[ddc-source-luasnip] LuaSnip plugin is not installed")
      else if JS.includes message "Lua execution error" then
        emit (ConsoleError "[ddc-source-luasnip] Lua code execution failed:")
      else
        emit (ConsoleError "[ddc-source-luasnip] Unexpected error:")
  | Thrown =>
      emit (ConsoleError "[ddc-source-luasnip] Unknown error:")
  end.

(** The [try] block of [gather]. *)
Definition gather_body (now : Z) (args : GatherArguments)
    : M t (list Item.t) :=
  analyzeResult <- analyzeContext (denops args) (context args);;
  if negb (AnalyzeResult.shouldComplete analyzeResult) then ret []
  else
    snippets <- getSnippets now (denops args)
                  (AnalyzeResult.filetype analyzeResult) (sourceParams args);;
    let filtered := filterSnippets snippets (input (context args)) in
    ret (JS.slice0 (convertToItems filtered (sourceParams args))
           (maxCandidates (sourceParams args))).

(** The guard and the [try]/[catch] that [gather] puts around its [try]
    block. *)
Definition gather_try (body : M t (list Item.t)) : M t (list Item.t) :=
  this <- read;;
  if negb (isInitialized this) then ret []
  else
    try_catch body
      (fun error => handleError error;;; ret []).

(** [async gather(args)]; [now] is what [Date.now()] reads during the call. *)
Definition gather (now : Z) (args : GatherArguments) : M t (list Item.t) :=
  gather_try (gather_body now args).

End Source.

(** ** The host framework

    ddc calls [onInit] once and then [gather] once per completion request,
    one call at a time; every call starts with an empty trace. *)

(** One request: the clock reading and the arguments of the call. *)
Definition request : Type := Z * GatherArguments.

Definition result_of {S A} (r : outcome A * S * list event) : outcome A :=
  r.1.1.

Definition state_of {S A} (r : outcome A * S * list event) : S := r.1.2.

Definition trace_of {S A} (r : outcome A * S * list event) : list event :=
  r.2.

(** The results of a series of [gather] calls on one instance. *)
Fixpoint gathers (calls : list request) (this : Source.t)
    : list (outcome (list Item.t)) :=
  match calls with
  | [] => []
  | (now, args) :: calls' =>
      let r := Source.gather now args this [] in
      result_of r :: gathers calls' (state_of r)
  end.

#[global] Instance event_eq_dec : EqDecision event.
Proof. solve_decision. Defined.

(** How often a trace invokes the upstream fetch for [filetype]. *)
Definition fetch_count (filetype : string) (tr : list event) : nat :=
  length (List.filter
    (fun e => bool_decide
       (e = Call "luaeval" (LuaSnipInterface.getSnippets_luaCode filetype)))
    tr).

(** The context key of a call: the file type the editor reports, or
    ["all"] when it reports none. *)
Definition context_key (reported : string) : string :=
  if JS.truthy reported then reported else "all".

(** The upstream fetch for [key] fails: the bridge throws, or answers with
    something that is not an array. *)
Definition fetch_fails (d : Denops) (key : string) : Prop :=
  match denops_call d "luaeval" (LuaSnipInterface.getSnippets_luaCode key) with
  | Throw _ => True
  | Ok (JArray _) => False
  | Ok _ => True
  end.

(** The key passes the allow-list and the deny-list of the configuration. *)
Definition key_allowed (p : Params) (key : string) : Prop :=
  (filetypes p = [] \/ key ∈ filetypes p) /\ key ∉ excludeFiletypes p.

(** The snippets that step 3 of a [gather] call hands to the filter: none
    when the call stops before retrieval. *)
Definition retrieved (now : Z) (args : GatherArguments) (this : Source.t)
    (tr : list event) : list LuaSnipData :=
  if negb (Source.isInitialized this) then []
  else
    match Source.analyzeContext (denops args) (context args) this tr with
    | (Ok ar, this', tr') =>
        if negb (AnalyzeResult.shouldComplete ar) then []
        else
          match Source.getSnippets now (denops args)
                  (AnalyzeResult.filetype ar) (sourceParams args) this' tr'
          with
          | (Ok snippets, _, _) => snippets
          | (Throw _, _, _) => []
          end
    | (Throw _, _, _) => []
    end.

(** ** The words of the specification, as definitions

    These follow the prose of the specification, not the code; the theorems
    below compare them with the methods of [Source]. *)

(** [s] starts with [p]. *)
Definition StartsWith (s p : string) : Prop :=
  ∃ rest, s = p +:+ rest.

(** [p] occurs in [s] as a substring. *)
Definition Contains (s p : string) : Prop :=
  ∃ before after, s = before +:+ p +:+ after.

(** A snippet matches the typed text, ignoring case: its trigger starts with
    the text, or it has a name that contains the text. *)
Definition Matches (typed : string) (snippet : LuaSnipData) : Prop :=
  StartsWith (JS.toLowerCase (trigger snippet)) (JS.toLowerCase typed)
  ∨ ∃ n, name snippet = Some n
         ∧ Contains (JS.toLowerCase n) (JS.toLowerCase typed).

(** An optional text field is present when it is there and not empty (the
    Lua chunk sends [''] for a missing name or description). *)
Definition present (o : option string) : option string :=
  match o with
  | Some s => if JS.is_empty s then None else Some s
  | None => None
  end.

(** The flags of a snippet that are true, by name. *)
Definition flag_words (snippet : LuaSnipData) : list string :=
  (if bool_decide (wordTrig snippet = Some true) then ["word trigger"] else [])
  ++ (if bool_decide (regTrig snippet = Some true) then ["regex trigger"] else []).

Definition optional_line (label : string) (o : option string) : list string :=
  match o with
  | Some text => [label +:+ text]
  | None => []
  end.

(** The lines of the info block, in their fixed order. *)
Definition info_lines (snippet : LuaSnipData) : list string :=
  ["Trigger: " +:+ trigger snippet]
  ++ optional_line "Name: " (present (name snippet))
  ++ optional_line "Description: " (present (description snippet))
  ++ ["Filetype: " +:+ filetype snippet]
  ++ match flag_words snippet with
     | [] => []
     | ws => ["Flags: " +:+ JS.join ", " ws]
     end.

(** The menu text as the specification words it: mark, a space and the
    description; trailing white space removed when there is no description. *)
Definition menu_as_specified (p : Params) (snippet : LuaSnipData) : string :=
  match present (description snippet) with
  | Some d => mark p +:+ " " +:+ d
  | None => JS.trimEnd (mark p +:+ " ")
  end.

(** The menu text with white space removed at both ends in every case. *)
Definition menu_trimmed (p : Params) (snippet : LuaSnipData) : string :=
  JS.trim (mark p +:+ " " +:+ default EmptyString (present (description snippet))).

(** The candidate of a snippet, for a given reading of the menu text. *)
Definition candidate (menu_text : Params -> LuaSnipData -> string)
    (p : Params) (snippet : LuaSnipData) : Item.t := {|
  Item.word := trigger snippet;
  Item.abbr := default (trigger snippet) (present (name snippet));
  Item.menu := menu_text p snippet;
  Item.info := JS.join LuaSnipInterface.nl (info_lines snippet);
  Item.kind := "Snippet";
  Item.dup := dup p;
|}.

(** A configuration with its three informational options replaced. *)
Definition with_informational (p : Params) (show regex dbg : bool) : Params := {|
  mark := mark p;
  dup := dup p;
  maxCandidates := maxCandidates p;
  enableCache := enableCache p;
  cacheTimeout := cacheTimeout p;
  filetypes := filetypes p;
  excludeFiletypes := excludeFiletypes p;
  showCondition := show;
  enableRegexTrigger := regex;
  debug := dbg;
|}.

Definition with_params (args : GatherArguments) (p : Params) : GatherArguments := {|
  denops := denops args;
  context := context args;
  sourceParams := p;
|}.

(** ** What one call observes *)

(** What [LuaSnipInterface.getSnippets] returns for [key]: the array the
    bridge answers with, or nothing when the bridge throws or answers with
    something else. *)
Definition fetched (d : Denops) (key : string) : list LuaSnipData :=
  match denops_call d "luaeval" (LuaSnipInterface.getSnippets_luaCode key) with
  | Ok v => array_or_empty v
  | Throw _ => []
  end.

(** The events of one upstream fetch for [key]. *)
Definition fetch_trace (d : Denops) (key : string) : list event :=
  Call "luaeval" (LuaSnipInterface.getSnippets_luaCode key)
  :: match denops_call d "luaeval" (LuaSnipInterface.getSnippets_luaCode key) with
     | Ok _ => []
     | Throw _ => [ConsoleError "[ddc-source-luasnip] Failed to get snippets:"]
     end.

(** The entry for [key] that [SnippetCache.get] serves at time [now], if
    any: one whose age is below the time-out of the cache object. *)
Definition fresh_entry (c : SnippetCache.t) (now : Z) (key : string)
    : option CacheEntry :=
  match SnippetCache.cache c !! key with
  | Some e =>
      if now - timestamp e <? SnippetCache.timeout c then Some e else None
  | None => None
  end.

(** The two file type restrictions at the head of [Source.getSnippets]. *)
Definition restricted (p : Params) (key : string) : bool :=
  ((0 <? Z.of_nat (length (filetypes p)))
   && negb (Source.array_includes (filetypes p) key))
  || Source.array_includes (excludeFiletypes p) key.

(** The value a run returned, or the empty array if it threw. *)
Definition returned {S A} (r : outcome (list A) * S * list event) : list A :=
  match result_of r with
  | Ok a => a
  | Throw _ => []
  end.

(** ** Sample data, after the repository's tests *)

Definition snippet_of (trig : string) (nm descr : option string) : LuaSnipData := {|
  trigger := trig;
  name := nm;
  description := descr;
  wordTrig := None;
  regTrig := None;
  filetype := "typescript";
|}.

Definition snip_function : LuaSnipData :=
  snippet_of "function" (Some "Function Declaration") (Some "Create a function").

Definition snip_variable : LuaSnipData :=
  snippet_of "variable" (Some "Variable Declaration") (Some "Create a variable").

Definition snippet1 : LuaSnipData := snippet_of "snippet1" None None.
Definition snippet2 : LuaSnipData := snippet_of "snippet2" None None.
Definition snippet3 : LuaSnipData := snippet_of "snippet3" None None.

(** A bridge like the tests' [MockDenops]: the editor reports one file
    type, LuaSnip is available or not, and every other [luaeval] gets the
    same answer. *)
Definition mock_denops (reported : string) (available : bool)
    (answer : outcome jsval) : Denops := {|
  denops_eval := fun expr =>
    if bool_decide (expr = "&filetype") then Ok reported else Ok EmptyString;
  denops_call := fun fn arg =>
    if bool_decide (arg = LuaSnipInterface.isLuaSnipAvailable_luaCode)
    then Ok (JBool available) else answer;
|}.

(** The defaults of [params()] with some options set by the user. *)
Definition user_params (max timeout : Z) (allow deny : list string) : Params := {|
  mark := mark Source.params;
  dup := dup Source.params;
  maxCandidates := max;
  enableCache := enableCache Source.params;
  cacheTimeout := timeout;
  filetypes := allow;
  excludeFiletypes := deny;
  showCondition := showCondition Source.params;
  enableRegexTrigger := enableRegexTrigger Source.params;
  debug := debug Source.params;
|}.

Definition mock_args_in (reported typed : string) (p : Params)
    (answer : outcome jsval) : GatherArguments := {|
  denops := mock_denops reported true answer;
  context := {| input := typed |};
  sourceParams := p;
|}.

(** The tests' arguments: the buffer is a TypeScript buffer. *)
Definition mock_args (typed : string) (p : Params) (answer : outcome jsval)
    : GatherArguments :=
  mock_args_in "typescript" typed p answer.

(** An instance after a successful [onInit]. *)
Definition ready_source : Source.t :=
  state_of (Source.onInit (mock_denops "typescript" true (Ok JNull)) Source.new []).

(** A configuration with another [cacheTimeout]. *)
Definition with_cacheTimeout (p : Params) (timeout : Z) : Params := {|
  mark := mark p;
  dup := dup p;
  maxCandidates := maxCandidates p;
  enableCache := enableCache p;
  cacheTimeout := timeout;
  filetypes := filetypes p;
  excludeFiletypes := excludeFiletypes p;
  showCondition := showCondition p;
  enableRegexTrigger := enableRegexTrigger p;
  debug := debug p;
|}.

(** ** Sessions *)

(** The instances a session can reach: a fresh one, and whatever [onInit]
    and [gather] calls leave behind, with any bridge, clock and arguments. *)
Inductive reachable : Source.t -> Prop :=
| reachable_new : reachable Source.new
| reachable_onInit (d : Denops) (this : Source.t) (tr : list event) :
    reachable this -> reachable (state_of (Source.onInit d this tr))
| reachable_gather (now : Z) (args : GatherArguments) (this : Source.t)
    (tr : list event) :
    reachable this -> reachable (state_of (Source.gather now args this tr)).

(** What the availability check of [onInit] finds on a bridge. *)
Definition available (d : Denops) : bool :=
  match denops_call d "luaeval" LuaSnipInterface.isLuaSnipAvailable_luaCode with
  | Ok v => Boolean v
  | Throw _ => false
  end.

(** A round trip over the bridge: a [denops.eval] or a [denops.call]. *)
Definition is_bridge_call (e : event) : bool :=
  match e with
  | EvalExpr _ => true
  | Call _ _ => true
  | ConsoleWarn _ => false
  | ConsoleError _ => false
  end.

(** Steps 4 to 6 of a [gather] call on the snippets that step 3 retrieved:
    filter by the typed input, convert, cut at [maxCandidates]. *)
Definition candidates_of (args : GatherArguments)
    (snippets : list LuaSnipData) : list Item.t :=
  JS.slice0
    (Source.convertToItems
       (Source.filterSnippets snippets (input (context args)))
       (sourceParams args))
    (maxCandidates (sourceParams args)).

(** A snippet with its empty and false optional fields left out. *)
Definition without_blanks (snippet : LuaSnipData) : LuaSnipData := {|
  trigger := trigger snippet;
  name := present (name snippet);
  description := present (description snippet);
  wordTrig := if JS.truthy_flag (wordTrig snippet) then Some true else None;
  regTrig := if JS.truthy_flag (regTrig snippet) then Some true else None;
  filetype := filetype snippet;
|}.

(** A cache holding one entry per listed key. *)
Definition cache_of (entries : list (string * CacheEntry)) (timeout : Z)
    : SnippetCache.t :=
  {| SnippetCache.cache := list_to_map entries; SnippetCache.timeout := timeout |}.

(** A fetcher that answers without touching the bridge. *)
Definition constant_fetcher (r : outcome (list LuaSnipData))
    : M SnippetCache.t (list LuaSnipData) :=
  fun c tr => (r, c, tr).

(** * Properties *)

(** ** Strings *)

Lemma startsWith_spec (s p : string) :
  JS.startsWith s p = true ↔ StartsWith s p.
Proof.
  revert s. induction p as [|b p IH]; intros s; simpl.
  - split; [intros _; by exists s | done].
  - destruct s as [|a s]; simpl.
    + split; [done | intros [rest Hrest]; discriminate].
    + rewrite andb_true_iff, bool_decide_eq_true, IH. split.
      * intros [-> [rest ->]]. by exists rest.
      * intros [rest Hrest]. simpl in Hrest. injection Hrest as -> ->.
        split; [done | by exists rest].
Qed.

Lemma includes_spec (s p : string) :
  JS.includes s p = true ↔ Contains s p.
Proof.
  induction s as [|a s IH].
  - simpl. rewrite orb_false_r, startsWith_spec. split.
    + intros [rest Hrest]. by exists EmptyString, rest.
    + intros [before [after Heq]].
      destruct before; simpl in Heq; [by exists after | discriminate].
  - change (JS.includes (String a s) p)
      with (JS.startsWith (String a s) p || JS.includes s p).
    rewrite orb_true_iff, startsWith_spec, IH. split.
    + intros [[rest Hrest] | [before [after Heq]]].
      * by exists EmptyString, rest.
      * exists (String a before), after. simpl. by rewrite Heq.
    + intros [before [after Heq]]. destruct before as [|c before]; simpl in Heq.
      * left. by exists after.
      * right. injection Heq as _ Heq. by exists before, after.
Qed.


(** ** Input filtering *)

Lemma filter_callback_spec (typed : string) (snippet : LuaSnipData) :
  Source.filter_callback (JS.toLowerCase typed) snippet = true
  ↔ Matches typed snippet.
Proof.
  unfold Source.filter_callback, Matches.
  destruct (JS.startsWith _ _) eqn:Hstart.
  - split; [intros _; left; by apply startsWith_spec | done].
  - assert (Hno : ¬ StartsWith (JS.toLowerCase (trigger snippet))
                      (JS.toLowerCase typed)).
    { rewrite <- startsWith_spec. congruence. }
    destruct (name snippet) as [n|] eqn:Hname;
      unfold JS.truthy_opt, JS.truthy; cbn [from_option id].
    + destruct n as [|c n]; cbn [JS.is_empty negb andb].
      * split; [done |]. intros [? | (n' & [= <-] & before & after & Heq)]; [done |].
        exfalso. apply Hno. simpl in Heq.
        destruct before; [| discriminate]. simpl in Heq.
        destruct (JS.toLowerCase typed); [| discriminate].
        by exists (JS.toLowerCase (trigger snippet)).
      * destruct (JS.includes _ _) eqn:Hinc.
        -- split; [intros _ | done]. right. eexists. split; [done |].
           by apply includes_spec.
        -- split; [done |]. intros [? | (n' & [= <-] & Hc)]; [done |].
           apply includes_spec in Hc. congruence.
    + split; [done |]. by intros [? | (n' & ? & _)].
Qed.

(** C3, as amended: the filter keeps every snippet when the trimmed typed
    text is empty; otherwise it is the stable filter (retrieval order kept,
    nothing re-sorted) by the predicate "ignoring case, the trigger starts
    with the typed text or the name contains it", where the typed text is
    taken as typed, not trimmed. *)
Theorem filterSnippets_stable_untrimmed (snippets : list LuaSnipData) (typed : string) :
  ∃ keep : LuaSnipData -> bool,
    (∀ snippet, keep snippet = true ↔ Matches typed snippet)
    ∧ Source.filterSnippets snippets typed
      = if JS.is_empty (JS.trim typed) then snippets
        else List.filter keep snippets.
Proof.
  exists (Source.filter_callback (JS.toLowerCase typed)). split.
  - intros snippet. apply filter_callback_spec.
  - unfold Source.filterSnippets, JS.truthy. rewrite negb_involutive.
    by destruct (JS.is_empty (JS.trim typed)).
Qed.

(** C3, as stated, fails: for the typed text [" fun"] the trimmed prefix is
    ["fun"], the trigger ["function"] starts with it, and yet the snippet is
    filtered out. *)
Lemma filterSnippets_trimmed_counterexample :
  JS.trim " fun" = "fun"
  ∧ Matches (JS.trim " fun") snip_function
  ∧ snip_function ∈ [snip_function]
  ∧ snip_function ∉ Source.filterSnippets [snip_function] " fun".
Proof.
  split; [reflexivity |]. split; [| split].
  - left. by exists "ction".
  - apply list_elem_of_here.
  - vm_compute. apply not_elem_of_nil.
Qed.

(** ** The steps of [gather] *)

Lemma nonempty_length {A} (l : list A) :
  0 < Z.of_nat (length l) ↔ l ≠ [].
Proof. destruct l; simpl; split; (done || lia). Qed.

Lemma restricted_true (p : Params) (key : string) :
  restricted p key = true
  ↔ (filetypes p ≠ [] ∧ key ∉ filetypes p) ∨ key ∈ excludeFiletypes p.
Proof.
  unfold restricted, Source.array_includes.
  by rewrite orb_true_iff, andb_true_iff, negb_true_iff, Z.ltb_lt,
    bool_decide_eq_true, bool_decide_eq_false, nonempty_length.
Qed.

Lemma restricted_false (p : Params) (key : string) :
  restricted p key = false ↔ key_allowed p key.
Proof.
  rewrite <- not_true_iff_false, restricted_true. unfold key_allowed.
  destruct (decide (filetypes p = [])) as [-> | Hne].
  - split; [intros H; split; [by left | tauto] | intros [_ ?] [[? _] | ?]; done].
  - destruct (decide (key ∈ filetypes p)); tauto.
Qed.

Lemma interface_getSnippets_run {S} (d : Denops) (key : string) (s : S)
    (tr : list event) :
  LuaSnipInterface.getSnippets d key s tr
  = (Ok (fetched d key), s, tr ++ fetch_trace d key).
Proof.
  unfold LuaSnipInterface.getSnippets, try_catch, bind, call, ret, emit,
    fetched, fetch_trace.
  destruct (denops_call d _ _) as [v | e]; [done |].
  by rewrite <- app_assoc.
Qed.

Lemma cache_get_run (now : Z) (key : string) (d : Denops)
    (c : SnippetCache.t) (tr : list event) :
  SnippetCache.get now key (LuaSnipInterface.getSnippets d key) c tr
  = match fresh_entry c now key with
    | Some e => (Ok (data e), c, tr)
    | None =>
        (Ok (fetched d key),
         SnippetCache.set_entry key
           {| data := fetched d key; timestamp := now |} c,
         tr ++ fetch_trace d key)
    end.
Proof.
  unfold SnippetCache.get, fresh_entry, bind, read, modify, ret.
  destruct (SnippetCache.cache c !! key) as [e |];
    [destruct (now - timestamp e <? SnippetCache.timeout c); [done |] |];
    by rewrite interface_getSnippets_run.
Qed.

Lemma set_cache_same (this : Source.t) :
  Source.set_cache (Source.cache this) this = this.
Proof. by destruct this. Qed.

Lemma source_getSnippets_run (now : Z) (d : Denops) (key : string)
    (p : Params) (this : Source.t) (tr : list event) :
  Source.getSnippets now d key p this tr
  = if restricted p key then (Ok [], this, tr)
    else if enableCache p then
      match fresh_entry (Source.cache this) now key with
      | Some e => (Ok (data e), this, tr)
      | None =>
          (Ok (fetched d key),
           Source.set_cache
             (SnippetCache.set_entry key
                {| data := fetched d key; timestamp := now |}
                (Source.cache this)) this,
           tr ++ fetch_trace d key)
      end
    else (Ok (fetched d key), this, tr ++ fetch_trace d key).
Proof.
  unfold Source.getSnippets, restricted.
  destruct (_ && _); [done |].
  destruct (Source.array_includes _ _); [done |]. simpl.
  destruct (enableCache p); [| apply interface_getSnippets_run].
  unfold zoom. rewrite cache_get_run.
  destruct (fresh_entry _ _ _); [| done]. by rewrite set_cache_same.
Qed.

Lemma source_getSnippets_ok (now : Z) (d : Denops) (key : string)
    (p : Params) (this : Source.t) (tr : list event) :
  let r := Source.getSnippets now d key p this tr in
  r = (Ok (returned r), state_of r, trace_of r).
Proof.
  simpl. rewrite source_getSnippets_run.
  destruct (restricted p key); [done |].
  destruct (enableCache p); [| done].
  by destruct (fresh_entry _ _ _).
Qed.

Lemma analyzeContext_run (d : Denops) (ctx : Context) (this : Source.t)
    (tr : list event) :
  Source.analyzeContext d ctx this tr
  = match denops_eval d "&filetype" with
    | Ok reported =>
        (Ok {| AnalyzeResult.shouldComplete := true;
               AnalyzeResult.filetype := context_key reported |},
         this, tr ++ [EvalExpr "&filetype"])
    | Throw _ =>
        (Ok {| AnalyzeResult.shouldComplete := false;
               AnalyzeResult.filetype := EmptyString |},
         this,
         tr ++ [EvalExpr "&filetype";
                ConsoleError "[ddc-source-luasnip] Context analysis failed:"])
    end.
Proof.
  unfold Source.analyzeContext, try_catch, bind, eval, ret, emit.
  destruct (denops_eval d _); [done |]. by rewrite <- app_assoc.
Qed.

(** One [gather] call, step by step. *)
Lemma gather_run (now : Z) (args : GatherArguments) (this : Source.t)
    (tr : list event) :
  Source.gather now args this tr
  = if negb (Source.isInitialized this) then (Ok [], this, tr)
    else
      match denops_eval (denops args) "&filetype" with
      | Throw _ =>
          (Ok [], this,
           tr ++ [EvalExpr "&filetype";
                  ConsoleError "[ddc-source-luasnip] Context analysis failed:"])
      | Ok reported =>
          let r := Source.getSnippets now (denops args) (context_key reported)
                     (sourceParams args) this (tr ++ [EvalExpr "&filetype"]) in
          (Ok (JS.slice0
                 (Source.convertToItems
                    (Source.filterSnippets (returned r) (input (context args)))
                    (sourceParams args))
                 (maxCandidates (sourceParams args))),
           state_of r, trace_of r)
      end.
Proof.
  unfold Source.gather, Source.gather_try, Source.gather_body.
  unfold bind at 1. unfold read at 1.
  destruct (negb (Source.isInitialized this)); [done |].
  unfold try_catch, bind. rewrite analyzeContext_run.
  destruct (denops_eval (denops args) _) as [reported | e]; [| done].
  cbn [AnalyzeResult.shouldComplete AnalyzeResult.filetype negb].
  by rewrite source_getSnippets_ok.
Qed.

Lemma retrieved_run (now : Z) (args : GatherArguments) (this : Source.t)
    (tr : list event) :
  retrieved now args this tr
  = if negb (Source.isInitialized this) then []
    else
      match denops_eval (denops args) "&filetype" with
      | Throw _ => []
      | Ok reported =>
          returned (Source.getSnippets now (denops args) (context_key reported)
                      (sourceParams args) this (tr ++ [EvalExpr "&filetype"]))
      end.
Proof.
  unfold retrieved. destruct (negb (Source.isInitialized this)); [done |].
  rewrite analyzeContext_run.
  destruct (denops_eval (denops args) _) as [reported | e]; [| done].
  cbn [AnalyzeResult.shouldComplete AnalyzeResult.filetype negb].
  by rewrite source_getSnippets_ok.
Qed.

Lemma slice0_nil {A} (e : Z) : JS.slice0 (@nil A) e = [].
Proof. unfold JS.slice0. by rewrite take_nil. Qed.

Lemma filterSnippets_nil (typed : string) : Source.filterSnippets [] typed = [].
Proof. unfold Source.filterSnippets. by destruct (negb _). Qed.

(** Steps 4 to 6 on no snippets give no candidates. *)
Lemma no_snippets_no_items (typed : string) (p : Params) (max : Z) :
  JS.slice0 (Source.convertToItems (Source.filterSnippets [] typed) p) max = [].
Proof. rewrite filterSnippets_nil. apply slice0_nil. Qed.

(** Project the outcome, state and trace of an explicit run. *)
Ltac project_run := cbn [returned result_of state_of trace_of fst snd].

(** What a [gather] call returns: the converted survivors of the retrieved
    snippets, sliced. *)
Lemma gather_result (now : Z) (args : GatherArguments) (this : Source.t)
    (tr : list event) :
  result_of (Source.gather now args this tr)
  = Ok (JS.slice0
          (Source.convertToItems
             (Source.filterSnippets (retrieved now args this tr)
                (input (context args)))
             (sourceParams args))
          (maxCandidates (sourceParams args))).
Proof.
  rewrite gather_run, retrieved_run.
  destruct (negb (Source.isInitialized this)).
  - by rewrite no_snippets_no_items.
  - destruct (denops_eval (denops args) _); [done |].
    by rewrite no_snippets_no_items.
Qed.

(** ** Truncation *)

Lemma slice0_nonneg {A} (a : list A) (e : Z) :
  0 ≤ e → JS.slice0 a e = take (Z.to_nat e) a.
Proof.
  intros He. unfold JS.slice0.
  destruct (e <? 0) eqn:Hneg; [apply Z.ltb_lt in Hneg; lia |].
  destruct (Z.min_spec e (Z.of_nat (length a))) as [[Hlt ->] | [Hge ->]]; [done |].
  rewrite Nat2Z.id, firstn_all. symmetry. apply take_ge. lia.
Qed.

Lemma slice0_prefix {A} (a : list A) (e : Z) : JS.slice0 a e `prefix_of` a.
Proof. apply prefix_take. Qed.

Lemma slice0_elem {A} (a : list A) (e : Z) (x : A) :
  x ∈ JS.slice0 a e → x ∈ a.
Proof.
  unfold JS.slice0. intros Hx. apply elem_of_take in Hx as (i & Hi & _).
  by eapply list_elem_of_lookup_2.
Qed.

(** Whatever [maxCandidates] is, a [gather] call returns a head prefix of
    the converted survivors. *)
Lemma gather_prefix (now : Z) (args : GatherArguments) (this : Source.t)
    (tr : list event) :
  returned (Source.gather now args this tr)
  `prefix_of` Source.convertToItems
                (Source.filterSnippets (retrieved now args this tr)
                   (input (context args)))
                (sourceParams args).
Proof. unfold returned. rewrite gather_result. apply slice0_prefix. Qed.

(** C7, as amended: when [maxCandidates] is not negative, a [gather] call
    returns at most [maxCandidates] candidates, and they are the first
    [maxCandidates] of the converted survivors, in order. *)
Theorem gather_head_truncation (now : Z) (args : GatherArguments)
    (this : Source.t) (tr : list event) :
  0 ≤ maxCandidates (sourceParams args) →
  ∃ items,
    result_of (Source.gather now args this tr) = Ok items
    ∧ Z.of_nat (length items) ≤ maxCandidates (sourceParams args)
    ∧ items = take (Z.to_nat (maxCandidates (sourceParams args)))
                (Source.convertToItems
                   (Source.filterSnippets (retrieved now args this tr)
                      (input (context args)))
                   (sourceParams args)).
Proof.
  intros Hmax. eexists. split; [apply gather_result |].
  rewrite slice0_nonneg by done. split; [| done].
  rewrite length_take. lia.
Qed.

Lemma gather_head_truncation_witness :
  ∃ items,
    result_of
      (Source.gather 0
         (mock_args EmptyString (user_params 2 5000 [] [])
            (Ok (JArray [snippet1; snippet2; snippet3])))
         ready_source []) = Ok items
    ∧ Z.of_nat (length items) ≤ 2
    ∧ items = take 2
                (Source.convertToItems [snippet1; snippet2; snippet3]
                   (user_params 2 5000 [] [])).
Proof.
  apply (gather_head_truncation 0
           (mock_args EmptyString (user_params 2 5000 [] [])
              (Ok (JArray [snippet1; snippet2; snippet3])))
           ready_source []).
  simpl. lia.
Defined.

(** C7, as stated, fails for a negative [maxCandidates]: [slice(0, -1)]
    drops the last candidate only, so three snippets yield two candidates,
    more than [maxCandidates]. *)
Lemma gather_negative_max_counterexample :
  ∃ items,
    result_of
      (Source.gather 0
         (mock_args EmptyString (user_params (-1) 5000 [] [])
            (Ok (JArray [snippet1; snippet2; snippet3])))
         ready_source []) = Ok items
    ∧ length items = 2%nat
    ∧ ¬ Z.of_nat (length items) ≤ maxCandidates (user_params (-1) 5000 [] []).
Proof.
  eexists. split; [vm_compute; reflexivity |]. split; [reflexivity |].
  simpl. lia.
Qed.

(** ** Conversion *)

Lemma or_else_present (o : option string) (d : string) :
  JS.or_else o d = default d (present o).
Proof. by destruct o as [[|c s]|]. Qed.

Lemma buildInfoText_lines (snippet : LuaSnipData) :
  Source.buildInfoText snippet
  = JS.join LuaSnipInterface.nl (info_lines snippet).
Proof.
  destruct snippet as [trig nm descr wt rt ft].
  unfold Source.buildInfoText, info_lines, flag_words; cbn [trigger name
    description wordTrig regTrig filetype].
  destruct nm as [[|c1 nm]|], descr as [[|c2 descr]|],
    wt as [[|]|], rt as [[|]|]; reflexivity.
Qed.

Lemma convert_callback_candidate (p : Params) (snippet : LuaSnipData) :
  Source.convert_callback p snippet = candidate menu_trimmed p snippet.
Proof.
  unfold Source.convert_callback, candidate, menu_trimmed.
  by rewrite buildInfoText_lines, !or_else_present.
Qed.

(** C8, as amended: every candidate is [candidate menu_trimmed] of its
    snippet: word = trigger; label = name if present, else trigger; menu =
    mark, a space and the description (if present), with white space
    removed at both ends in every case; info = the lines Trigger, Name (if
    present), Description (if present), Filetype, Flags (only the true
    ones; no line when none is true); kind = "Snippet"; dup = the
    configured [dup].  And every candidate that [gather] returns is the
    candidate of a retrieved snippet that survived the filter. *)
Theorem candidates_derived_from_snippets :
  (∀ snippets p,
     Source.convertToItems snippets p
     = List.map (candidate menu_trimmed p) snippets)
  ∧ (∀ now args this tr,
       ∃ items,
         result_of (Source.gather now args this tr) = Ok items
         ∧ Forall
             (λ item, ∃ snippet,
                snippet ∈ Source.filterSnippets (retrieved now args this tr)
                            (input (context args))
                ∧ item = candidate menu_trimmed (sourceParams args) snippet)
             items).
Proof.
  split.
  - intros snippets p. unfold Source.convertToItems.
    apply map_ext. intros snippet. apply convert_callback_candidate.
  - intros now args this tr. eexists. split; [apply gather_result |].
    apply Forall_forall. intros item Hitem.
    apply slice0_elem in Hitem.
    unfold Source.convertToItems in Hitem.
    apply list_elem_of_In, in_map_iff in Hitem as (snippet & <- & Hin).
    exists snippet. split; [| apply convert_callback_candidate].
    by apply list_elem_of_In.
Qed.

(** C8, as stated, fails on the menu text: with a description that ends in
    white space the code trims the whole text, although the description is
    not absent. *)
Lemma menu_as_specified_counterexample :
  Item.menu
    (Source.convert_callback Source.params
       (snippet_of "fn" None (Some "note "))) = "[LS] note"
  ∧ menu_as_specified Source.params (snippet_of "fn" None (Some "note "))
    = "[LS] note "
  ∧ Source.convert_callback Source.params (snippet_of "fn" None (Some "note "))
    ≠ candidate menu_as_specified Source.params
        (snippet_of "fn" None (Some "note ")).
Proof.
  split; [reflexivity |]. split; [reflexivity |].
  intros Heq. apply (f_equal Item.menu) in Heq. vm_compute in Heq.
  discriminate Heq.
Qed.

(** ** Allow-list and deny-list *)

Lemma fetch_count_app (key : string) (tr1 tr2 : list event) :
  fetch_count key (tr1 ++ tr2) = (fetch_count key tr1 + fetch_count key tr2)%nat.
Proof. unfold fetch_count. by rewrite List.filter_app, List.length_app. Qed.

Lemma fetch_count_fetch_trace (d : Denops) (key : string) :
  fetch_count key (fetch_trace d key) = 1%nat.
Proof.
  unfold fetch_count, fetch_trace. cbn [List.filter].
  rewrite bool_decide_eq_true_2 by done.
  by destruct (denops_call d _ _).
Qed.

(** C6: when the editor reports a file type whose context key is missing
    from a non-empty allow-list, or is on the deny-list, [gather] returns
    the empty sequence whatever the bridge would answer; the instance is
    left as it was and the upstream fetch is not invoked. *)
Theorem gather_restricted_filetype (now : Z) (args : GatherArguments)
    (this : Source.t) (tr : list event) (reported : string) :
  denops_eval (denops args) "&filetype" = Ok reported →
  (filetypes (sourceParams args) ≠ []
   ∧ context_key reported ∉ filetypes (sourceParams args))
  ∨ context_key reported ∈ excludeFiletypes (sourceParams args) →
  result_of (Source.gather now args this tr) = Ok []
  ∧ state_of (Source.gather now args this tr) = this
  ∧ ∀ key, fetch_count key (trace_of (Source.gather now args this tr))
           = fetch_count key tr.
Proof.
  intros Heval Hrestricted. apply restricted_true in Hrestricted.
  rewrite gather_run. destruct (negb (Source.isInitialized this)); [done |].
  rewrite Heval, source_getSnippets_run, Hrestricted. project_run.
  rewrite no_snippets_no_items. repeat split.
  intros key. rewrite fetch_count_app. unfold fetch_count at 2. simpl. lia.
Qed.

Lemma gather_restricted_filetype_witness :
  result_of
    (Source.gather 0
       (mock_args EmptyString (user_params 500 5000 [] ["typescript"])
          (Ok (JArray [snip_function; snip_variable])))
       ready_source []) = Ok []
  ∧ result_of
      (Source.gather 0
         (mock_args EmptyString (user_params 500 5000 ["python"] [])
            (Ok (JArray [snip_function; snip_variable])))
         ready_source []) = Ok [].
Proof.
  split.
  - apply (gather_restricted_filetype 0
             (mock_args EmptyString (user_params 500 5000 [] ["typescript"])
                (Ok (JArray [snip_function; snip_variable])))
             ready_source [] "typescript"); [reflexivity |].
    right. apply list_elem_of_here.
  - apply (gather_restricted_filetype 0
             (mock_args EmptyString (user_params 500 5000 ["python"] [])
                (Ok (JArray [snip_function; snip_variable])))
             ready_source [] "typescript"); [reflexivity |].
    left. split; [discriminate |].
    intros Hin. apply list_elem_of_In in Hin. simpl in Hin.
    destruct Hin as [Heq | []]. discriminate Heq.
Defined.

(** ** Options that are only carried along *)

Lemma params_informational (p : Params) :
  p = with_informational p (showCondition p) (enableRegexTrigger p) (debug p).
Proof. by destruct p. Qed.

(** C9: two [gather] calls that differ only in the values of
    [showCondition], [enableRegexTrigger] and [debug] run identically: same
    candidates, same instance state, same trace. *)
Theorem gather_ignores_informational (now : Z) (args : GatherArguments)
    (p : Params) (this : Source.t) (tr : list event)
    (show regex dbg show' regex' dbg' : bool) :
  Source.gather now (with_params args (with_informational p show regex dbg))
    this tr
  = Source.gather now
      (with_params args (with_informational p show' regex' dbg')) this tr.
Proof.
  rewrite !gather_run. cbn [with_params denops context sourceParams].
  destruct (negb (Source.isInitialized this)); [done |].
  destruct (denops_eval (denops args) _) as [reported | e]; [| done].
  cbn zeta. rewrite !source_getSnippets_run. reflexivity.
Qed.

(** ** The context key *)

(** C10: when the editor reports the empty string as the file type, the
    call is not aborted: the analysis says to complete and hands down the
    key ["all"], and an initialised [gather] uses that key at every step.
    - Allow/deny filtering: when ["all"] is missing from a non-empty
      allow-list or is on the deny-list, the call returns the empty
      sequence without touching the cache or the bridge again.
    - Caching: when the cache is enabled and holds an entry under ["all"]
      younger than the time-out, the call is served that entry; when it
      holds no such entry, the call fetches and writes the result under
      ["all"], stamped with the clock reading, leaving other keys alone.
    - Fetching: a fetch, cached or not, is one [luaeval] of the chunk for
      ["all"], and the candidates come from the bridge's answer to it. *)
Theorem empty_filetype_is_all (now : Z) (args : GatherArguments)
    (this : Source.t) (tr : list event) :
  denops_eval (denops args) "&filetype" = Ok EmptyString →
  Source.isInitialized this = true →
  Source.analyzeContext (denops args) (context args) this tr
  = (Ok {| AnalyzeResult.shouldComplete := true;
           AnalyzeResult.filetype := "all" |},
     this, tr ++ [EvalExpr "&filetype"])
  ∧ ((filetypes (sourceParams args) ≠ []
      ∧ "all" ∉ filetypes (sourceParams args))
     ∨ "all" ∈ excludeFiletypes (sourceParams args) →
     Source.gather now args this tr
     = (Ok [], this, tr ++ [EvalExpr "&filetype"]))
  ∧ (key_allowed (sourceParams args) "all" →
     enableCache (sourceParams args) = true →
     ∀ entry,
       SnippetCache.cache (Source.cache this) !! "all" = Some entry →
       now - timestamp entry < SnippetCache.timeout (Source.cache this) →
       Source.gather now args this tr
       = (Ok (candidates_of args (data entry)), this,
          tr ++ [EvalExpr "&filetype"]))
  ∧ (key_allowed (sourceParams args) "all" →
     enableCache (sourceParams args) = true →
     fresh_entry (Source.cache this) now "all" = None →
     result_of (Source.gather now args this tr)
     = Ok (candidates_of args (fetched (denops args) "all"))
     ∧ trace_of (Source.gather now args this tr)
       = tr ++ EvalExpr "&filetype"
               :: Call "luaeval" (LuaSnipInterface.getSnippets_luaCode "all")
               :: match denops_call (denops args) "luaeval"
                          (LuaSnipInterface.getSnippets_luaCode "all") with
                  | Ok _ => []
                  | Throw _ =>
                      [ConsoleError "[ddc-source-luasnip] Failed to get snippets:"]
                  end
     ∧ SnippetCache.cache
         (Source.cache (state_of (Source.gather now args this tr))) !! "all"
       = Some {| data := fetched (denops args) "all"; timestamp := now |}
     ∧ ∀ key, key ≠ "all" →
         SnippetCache.cache
           (Source.cache (state_of (Source.gather now args this tr))) !! key
         = SnippetCache.cache (Source.cache this) !! key)
  ∧ (key_allowed (sourceParams args) "all" →
     enableCache (sourceParams args) = false →
     Source.gather now args this tr
     = (Ok (candidates_of args (fetched (denops args) "all")), this,
        tr ++ EvalExpr "&filetype"
           :: Call "luaeval" (LuaSnipInterface.getSnippets_luaCode "all")
           :: match denops_call (denops args) "luaeval"
                      (LuaSnipInterface.getSnippets_luaCode "all") with
              | Ok _ => []
              | Throw _ =>
                  [ConsoleError "[ddc-source-luasnip] Failed to get snippets:"]
              end)).
Proof.
  intros Heval Hready.
  assert (Hrun :
    Source.gather now args this tr
    = let r := Source.getSnippets now (denops args) "all" (sourceParams args)
                 this (tr ++ [EvalExpr "&filetype"]) in
      (Ok (candidates_of args (returned r)), state_of r, trace_of r)).
  { by rewrite gather_run, Hready, Heval. }
  assert (Hfetch :
    (tr ++ [EvalExpr "&filetype"]) ++ fetch_trace (denops args) "all"
    = tr ++ EvalExpr "&filetype"
         :: Call "luaeval" (LuaSnipInterface.getSnippets_luaCode "all")
         :: match denops_call (denops args) "luaeval"
                    (LuaSnipInterface.getSnippets_luaCode "all") with
            | Ok _ => []
            | Throw _ =>
                [ConsoleError "[ddc-source-luasnip] Failed to get snippets:"]
            end).
  { by rewrite <- app_assoc. }
  rewrite Hrun. cbn zeta. rewrite source_getSnippets_run.
  split; [by rewrite analyzeContext_run, Heval |].
  split; [| split; [| split]].
  - intros Hrestricted. apply restricted_true in Hrestricted.
    rewrite Hrestricted. project_run.
    unfold candidates_of. by rewrite no_snippets_no_items.
  - intros Hallowed Hcache entry Hentry Hage.
    apply restricted_false in Hallowed. rewrite Hallowed, Hcache.
    unfold fresh_entry. rewrite Hentry.
    by destruct (Z.ltb_spec (now - timestamp entry)
                   (SnippetCache.timeout (Source.cache this))); [| lia].
  - intros Hallowed Hcache Hfresh.
    apply restricted_false in Hallowed. rewrite Hallowed, Hcache, Hfresh.
    project_run.
    cbn [Source.set_cache Source.cache SnippetCache.set_entry SnippetCache.cache].
    split; [done |]. split; [exact Hfetch |].
    split; [apply lookup_insert_eq |].
    intros key Hkey. by rewrite lookup_insert_ne.
  - intros Hallowed Hcache.
    apply restricted_false in Hallowed. rewrite Hallowed, Hcache.
    by rewrite Hfetch.
Qed.

Lemma empty_filetype_is_all_witness :
  Source.analyzeContext
    (denops (mock_args_in EmptyString EmptyString Source.params
               (Ok (JArray [snippet1]))))
    (context (mock_args_in EmptyString EmptyString Source.params
                (Ok (JArray [snippet1]))))
    ready_source []
  = (Ok {| AnalyzeResult.shouldComplete := true;
           AnalyzeResult.filetype := "all" |},
     ready_source, [EvalExpr "&filetype"])
  ∧ trace_of
      (Source.gather 7
         (mock_args_in EmptyString EmptyString Source.params
            (Ok (JArray [snippet1])))
         ready_source [])
    = [EvalExpr "&filetype";
       Call "luaeval" (LuaSnipInterface.getSnippets_luaCode "all")]
  ∧ SnippetCache.cache
      (Source.cache
         (state_of
            (Source.gather 7
               (mock_args_in EmptyString EmptyString Source.params
                  (Ok (JArray [snippet1])))
               ready_source []))) !! "all"
    = Some {| data := [snippet1]; timestamp := 7 |}
  ∧ Source.gather 7
      (mock_args_in EmptyString EmptyString (user_params 500 5000 [] ["all"])
         (Ok (JArray [snippet1])))
      ready_source []
    = (Ok [], ready_source, [EvalExpr "&filetype"]).
Proof.
  destruct (empty_filetype_is_all 7
              (mock_args_in EmptyString EmptyString Source.params
                 (Ok (JArray [snippet1])))
              ready_source [])
    as (Hanalysis & _ & _ & Hmiss & _); [reflexivity | reflexivity |].
  destruct Hmiss as (_ & Htrace & Hentry & _);
    [split; [by left | apply not_elem_of_nil] | reflexivity | reflexivity |].
  destruct (empty_filetype_is_all 7
              (mock_args_in EmptyString EmptyString
                 (user_params 500 5000 [] ["all"]) (Ok (JArray [snippet1])))
              ready_source [])
    as (_ & Hdenied & _); [reflexivity | reflexivity |].
  split; [exact Hanalysis |]. split; [exact Htrace |].
  split; [exact Hentry |].
  apply Hdenied. right. apply list_elem_of_here.
Defined.

(** ** Initialisation *)

Lemma gather_uninitialized (now : Z) (args : GatherArguments)
    (this : Source.t) (tr : list event) :
  Source.isInitialized this = false →
  Source.gather now args this tr = (Ok [], this, tr).
Proof. intros Hinit. by rewrite gather_run, Hinit. Qed.

Lemma gathers_uninitialized (calls : list request) (this : Source.t) :
  Source.isInitialized this = false →
  Forall (λ r, r = Ok []) (gathers calls this).
Proof.
  intros Hinit. induction calls as [| [now args] calls IH]; simpl.
  - constructor.
  - rewrite gather_uninitialized by done. by constructor.
Qed.

Lemma onInit_run (d : Denops) (this : Source.t) (tr : list event) :
  Source.onInit d this tr
  = match result_of (LuaSnipInterface.isLuaSnipAvailable d this tr) with
    | Ok true =>
        (Ok tt, Source.set_isInitialized true this,
         tr ++ [Call "luaeval" LuaSnipInterface.isLuaSnipAvailable_luaCode])
    | _ =>
        (Ok tt, this,
         tr ++ [Call "luaeval" LuaSnipInterface.isLuaSnipAvailable_luaCode;
                ConsoleWarn
                  "[ddc-source-luasnip] LuaSnip plugin is not available. Please install L3MON4D3/LuaSnip."])
    end.
Proof.
  unfold Source.onInit, LuaSnipInterface.isLuaSnipAvailable, try_catch, bind,
    call, ret, emit, modify, result_of.
  destruct (denops_call d _ _) as [v | e]; cbn [fst snd].
  - destruct (Boolean v); cbn [negb]; [done |]. by rewrite <- app_assoc.
  - cbn [negb]. by rewrite <- app_assoc.
Qed.

(** C5: on an instance that is not initialised, if the availability check
    of [onInit] returns false, the instance is still not initialised after
    [onInit], and every later [gather] call, whatever its arguments and the
    state of the bridge, returns the empty sequence. *)
Theorem unavailable_engine_gathers_nothing (d : Denops) (this : Source.t)
    (tr : list event) :
  Source.isInitialized this = false →
  result_of (LuaSnipInterface.isLuaSnipAvailable d this tr) = Ok false →
  Source.isInitialized (state_of (Source.onInit d this tr)) = false
  ∧ ∀ calls : list request,
      Forall (λ r, r = Ok []) (gathers calls (state_of (Source.onInit d this tr))).
Proof.
  intros Hinit Hcheck. rewrite onInit_run, Hcheck. cbn [state_of fst snd].
  split; [done |]. intros calls. by apply gathers_uninitialized.
Qed.

Lemma unavailable_engine_gathers_nothing_witness :
  Source.isInitialized
    (state_of (Source.onInit (mock_denops "typescript" false (Ok JNull))
                 Source.new [])) = false
  ∧ ∀ calls : list request,
      Forall (λ r, r = Ok [])
        (gathers calls
           (state_of (Source.onInit (mock_denops "typescript" false (Ok JNull))
                        Source.new []))).
Proof.
  apply (unavailable_engine_gathers_nothing
           (mock_denops "typescript" false (Ok JNull)) Source.new []);
    reflexivity.
Defined.

(** ** Exceptions *)

Lemma handleError_run (error : exn) (this : Source.t) (tr : list event) :
  ∃ line, Source.handleError error this tr = (Ok tt, this, tr ++ [line]).
Proof.
  unfold Source.handleError, emit.
  destruct error as [message |]; [| by eexists].
  destruct (JS.includes message "LuaSnip not found"); [by eexists |].
  destruct (JS.includes message "Lua execution error"); by eexists.
Qed.

Lemma fetch_fails_fetched (d : Denops) (key : string) :
  fetch_fails d key → fetched d key = [].
Proof.
  unfold fetch_fails, fetched. by destruct (denops_call d _ _) as [[] |].
Qed.

(** The guard and the [catch] of [gather] turn every outcome of the [try]
    block into a returned array, the empty one if the block threw. *)
Lemma gather_try_total (body : M Source.t (list Item.t)) (this : Source.t)
    (tr : list event) :
  ∃ items this' tr',
    Source.gather_try body this tr = (Ok items, this', tr')
    ∧ ∀ e, result_of (body this tr) = Throw e → items = [].
Proof.
  unfold Source.gather_try, try_catch, bind, read, ret.
  destruct (negb (Source.isInitialized this)); [by eexists _, _, _ |].
  destruct (body this tr) as [[[items | e] this'] tr'] eqn:Hbody.
  - eexists _, _, _. split; [done |]. intros e. discriminate.
  - destruct (handleError_run e this' tr') as [line ->].
    by eexists _, _, _.
Qed.

(** C4: [gather] never throws.  Whatever the [try] block does, the guard
    and the [catch] around it return an array, and the empty one if the
    block threw; and the [gather] of the source returns an array for every
    input, the empty one when the context analysis fails and when the
    upstream fetch is invoked and fails. *)
Theorem gather_never_throws :
  (∀ body this tr,
     ∃ items this' tr',
       Source.gather_try body this tr = (Ok items, this', tr')
       ∧ ∀ e, result_of (body this tr) = Throw e → items = [])
  ∧ (∀ now args this tr,
       ∃ items this' new,
         Source.gather now args this tr = (Ok items, this', tr ++ new)
         ∧ (∀ e, denops_eval (denops args) "&filetype" = Throw e → items = [])
         ∧ (∀ reported,
              denops_eval (denops args) "&filetype" = Ok reported →
              fetch_fails (denops args) (context_key reported) →
              (0 < fetch_count (context_key reported) new)%nat →
              items = [])).
Proof.
  split; [apply gather_try_total |].
  intros now args this tr. rewrite gather_run.
  destruct (negb (Source.isInitialized this)).
  { exists [], this, []. by rewrite app_nil_r. }
  destruct (denops_eval (denops args) "&filetype") as [reported | e].
  2:{ eexists _, _, _. split; [done |]. split; [done |]. intros ? [=]. }
  cbn zeta. rewrite source_getSnippets_run.
  destruct (restricted _ _).
  { exists [], this, [EvalExpr "&filetype"]. project_run.
    by rewrite no_snippets_no_items. }
  destruct (enableCache _).
  - destruct (fresh_entry _ _ _) as [entry |]; project_run.
    + eexists _, _, [EvalExpr "&filetype"]. split; [done |].
      split; [intros ? [=] |]. intros ? [= <-] _ Hcount.
      unfold fetch_count in Hcount. simpl in Hcount. lia.
    + eexists _, _, _. rewrite <- app_assoc. split; [done |].
      split; [intros ? [=] |]. intros ? [= <-] Hfails _.
      by rewrite (fetch_fails_fetched _ _ Hfails), no_snippets_no_items.
  - project_run.
    eexists _, _, _. rewrite <- app_assoc. split; [done |].
    split; [intros ? [=] |]. intros ? [= <-] Hfails _.
    by rewrite (fetch_fails_fetched _ _ Hfails), no_snippets_no_items.
Qed.

(** ** The cache *)

(** When its fetcher throws, [SnippetCache.get] passes the exception on and
    writes nothing. *)
Lemma cache_get_fetcher_throws (now : Z) (key : string)
    (fetcher : M SnippetCache.t (list LuaSnipData)) (c : SnippetCache.t)
    (tr : list event) (e : exn) (c' : SnippetCache.t) (tr' : list event) :
  fresh_entry c now key = None →
  fetcher c tr = (Throw e, c', tr') →
  SnippetCache.get now key fetcher c tr = (Throw e, c', tr').
Proof.
  unfold SnippetCache.get, fresh_entry, bind, read. intros Hfresh Hfetch.
  destruct (SnippetCache.cache c !! key) as [entry |];
    [destruct (now - timestamp entry <? SnippetCache.timeout c); [done |] |];
    by rewrite Hfetch.
Qed.

(** The time-out of the cache of a [Source] is the constructor's default,
    and no [gather] call changes it. *)
Lemma new_source_timeout :
  SnippetCache.timeout (Source.cache Source.new) = 5000.
Proof. reflexivity. Qed.

Lemma gather_keeps_timeout (now : Z) (args : GatherArguments)
    (this : Source.t) (tr : list event) :
  SnippetCache.timeout (Source.cache (state_of (Source.gather now args this tr)))
  = SnippetCache.timeout (Source.cache this).
Proof.
  rewrite gather_run. destruct (negb (Source.isInitialized this)); [done |].
  destruct (denops_eval (denops args) _) as [reported | e]; [| done].
  cbn zeta. rewrite source_getSnippets_run.
  destruct (restricted _ _); [done |].
  destruct (enableCache _); [| done].
  by destruct (fresh_entry _ _ _).
Qed.

(** [gather] never reads [cacheTimeout]: changing it changes nothing. *)
Lemma gather_ignores_cacheTimeout (now : Z) (args : GatherArguments)
    (p : Params) (this : Source.t) (tr : list event) (timeout timeout' : Z) :
  Source.gather now (with_params args (with_cacheTimeout p timeout)) this tr
  = Source.gather now (with_params args (with_cacheTimeout p timeout')) this tr.
Proof.
  rewrite !gather_run. cbn [with_params denops context sourceParams].
  destruct (negb (Source.isInitialized this)); [done |].
  destruct (denops_eval (denops args) _) as [reported | e]; [| done].
  cbn zeta. rewrite !source_getSnippets_run. reflexivity.
Qed.

Lemma fresh_entry_after_store (c : SnippetCache.t) (key : string)
    (entry : CacheEntry) (now' : Z) :
  now' - timestamp entry < SnippetCache.timeout c →
  fresh_entry (SnippetCache.set_entry key entry c) now' key = Some entry.
Proof.
  intros Hage. unfold fresh_entry, SnippetCache.set_entry.
  cbn [SnippetCache.cache SnippetCache.timeout].
  rewrite lookup_insert_eq.
  by destruct (Z.ltb_spec (now' - timestamp entry) (SnippetCache.timeout c)); [| lia].
Qed.

(** C1, which the code does not meet: the age of a cache entry is compared
    with the time-out the cache object was built with (5000), not with
    [cacheTimeout].  With [cacheTimeout] = 1000 a call 2000 ms after the
    fetch is still served the old entry, without a fetch; with
    [cacheTimeout] = 10000 a call 6000 ms after the fetch fetches again. *)
Theorem cacheTimeout_not_honoured :
  (let p := user_params 500 1000 [] [] in
   let first :=
     Source.gather 0 (mock_args EmptyString p (Ok (JArray [snip_function])))
       ready_source [] in
   let second :=
     Source.gather 2000 (mock_args EmptyString p (Ok (JArray [snip_variable])))
       (state_of first) [] in
   cacheTimeout p = 1000
   ∧ fetch_count "typescript" (trace_of first) = 1%nat
   ∧ fetch_count "typescript" (trace_of second) = 0%nat
   ∧ result_of second = Ok (Source.convertToItems [snip_function] p))
  ∧ (let p := user_params 500 10000 [] [] in
     let first :=
       Source.gather 0 (mock_args EmptyString p (Ok (JArray [snip_function])))
         ready_source [] in
     let second :=
       Source.gather 6000 (mock_args EmptyString p (Ok (JArray [snip_function])))
         (state_of first) [] in
     cacheTimeout p = 10000
     ∧ fetch_count "typescript" (trace_of first) = 1%nat
     ∧ fetch_count "typescript" (trace_of second) = 1%nat).
Proof. vm_compute. repeat split. Qed.

(** ** Failed fetches *)

(** C2, as amended: when the upstream fetch is invoked by a [gather] call
    and fails (the bridge throws or answers with something that is not an
    array), the call returns the empty sequence.  With caching enabled the
    empty snippet set is written to the cache under the context key like
    any fetched result, and a later [gather] call for the same key within
    the cache's time-out is served that empty set and does not invoke the
    fetch, whatever the bridge would answer by then.  With caching disabled
    nothing is written. *)
Theorem failed_fetch_is_cached (now : Z) (args : GatherArguments)
    (this : Source.t) (tr : list event) (reported : string) :
  Source.isInitialized this = true →
  denops_eval (denops args) "&filetype" = Ok reported →
  key_allowed (sourceParams args) (context_key reported) →
  enableCache (sourceParams args) = false
  ∨ fresh_entry (Source.cache this) now (context_key reported) = None →
  fetch_fails (denops args) (context_key reported) →
  result_of (Source.gather now args this tr) = Ok []
  ∧ fetch_count (context_key reported) (trace_of (Source.gather now args this tr))
    = S (fetch_count (context_key reported) tr)
  ∧ (enableCache (sourceParams args) = false →
     state_of (Source.gather now args this tr) = this)
  ∧ (enableCache (sourceParams args) = true →
     SnippetCache.cache (Source.cache (state_of (Source.gather now args this tr)))
       !! context_key reported
     = Some {| data := []; timestamp := now |}
     ∧ ∀ now' args' tr' reported',
         denops_eval (denops args') "&filetype" = Ok reported' →
         context_key reported' = context_key reported →
         key_allowed (sourceParams args') (context_key reported) →
         enableCache (sourceParams args') = true →
         now' - now < SnippetCache.timeout (Source.cache this) →
         Source.gather now' args' (state_of (Source.gather now args this tr)) tr'
         = (Ok [], state_of (Source.gather now args this tr),
            tr' ++ [EvalExpr "&filetype"])).
Proof.
  intros Hready Heval Hallowed Hinvoked Hfails.
  apply restricted_false in Hallowed.
  apply fetch_fails_fetched in Hfails.
  assert (Hcount : ∀ d,
            fetch_count (context_key reported)
              ((tr ++ [EvalExpr "&filetype"]) ++ fetch_trace d (context_key reported))
            = S (fetch_count (context_key reported) tr)).
  { intros d. rewrite !fetch_count_app, fetch_count_fetch_trace.
    unfold fetch_count at 2. simpl. lia. }
  rewrite gather_run, Hready, Heval. cbn [negb]. cbn zeta.
  rewrite source_getSnippets_run, Hallowed, Hfails.
  destruct (enableCache (sourceParams args)) eqn:Hcache.
  - destruct Hinvoked as [[=] | ->]. project_run.
    rewrite no_snippets_no_items. split; [done |]. split; [apply Hcount |].
    split; [intros [=] |]. intros _. split.
    + cbn [Source.set_cache Source.cache SnippetCache.set_entry SnippetCache.cache].
      apply lookup_insert_eq.
    + intros now' args' tr' reported' Heval' Hkey Hallowed' Hcache' Hage.
      apply restricted_false in Hallowed'.
      rewrite gather_run. cbn [Source.set_cache Source.isInitialized].
      rewrite Hready, Heval', Hkey. cbn [negb]. cbn zeta.
      rewrite source_getSnippets_run, Hallowed', Hcache'.
      cbn [Source.set_cache Source.cache].
      rewrite fresh_entry_after_store by (cbn [timestamp]; lia).
      project_run. cbn [data]. by rewrite no_snippets_no_items.
  - project_run. rewrite no_snippets_no_items.
    split; [done |]. split; [apply Hcount |]. split; [done |]. intros [=].
Qed.

Lemma failed_fetch_is_cached_witness :
  result_of
    (Source.gather 0 (mock_args EmptyString Source.params (Throw (ErrorObject "Lua execution error")))
       ready_source []) = Ok []
  ∧ SnippetCache.cache
      (Source.cache
         (state_of
            (Source.gather 0
               (mock_args EmptyString Source.params (Throw (ErrorObject "Lua execution error")))
               ready_source [])))
      !! "typescript"
    = Some {| data := []; timestamp := 0 |}.
Proof.
  destruct (failed_fetch_is_cached 0
              (mock_args EmptyString Source.params (Throw (ErrorObject "Lua execution error")))
              ready_source [] "typescript")
    as (Hresult & _ & _ & Hcached).
  - reflexivity.
  - reflexivity.
  - split; [by left | apply not_elem_of_nil].
  - right. reflexivity.
  - exact I.
  - split; [exact Hresult |].
    destruct (Hcached eq_refl) as [Hentry _]. exact Hentry.
Defined.

(** C2, as stated, fails: after a fetch that threw at time 0, the cache
    holds an (empty) entry for the key, and a call 1000 ms later, when the
    bridge would answer with a snippet, is served the empty set without a
    fetch. *)
Lemma failed_fetch_counterexample :
  let failing :=
    Source.gather 0
      (mock_args EmptyString Source.params (Throw (ErrorObject "Lua execution error")))
      ready_source [] in
  let later :=
    Source.gather 1000
      (mock_args EmptyString Source.params (Ok (JArray [snip_function])))
      (state_of failing) [] in
  fetch_fails
    (denops (mock_args EmptyString Source.params (Throw (ErrorObject "Lua execution error"))))
    "typescript"
  ∧ SnippetCache.cache (Source.cache (state_of failing)) !! "typescript"
    = Some {| data := []; timestamp := 0 |}
  ∧ fetch_count "typescript" (trace_of later) = 0%nat
  ∧ result_of later = Ok [].
Proof. vm_compute. repeat split. Qed.

(** ** The repository's tests, replayed on the model *)

Example test_onInit_available :
  Source.isInitialized ready_source = true.
Proof. reflexivity. Qed.

Example test_filter_by_input :
  result_of
    (Source.gather 0
       (mock_args "fun" Source.params
          (Ok (JArray [snip_function; snip_variable])))
       ready_source [])
  = Ok [ {| Item.word := "function";
            Item.abbr := "Function Declaration";
            Item.menu := "[LS] Create a function";
            Item.info :=
              JS.join LuaSnipInterface.nl
                [ "Trigger: function";
                  "Name: Function Declaration";
                  "Description: Create a function";
                  "Filetype: typescript" ];
            Item.kind := "Snippet";
            Item.dup := false |} ].
Proof. vm_compute. reflexivity. Qed.

Example test_maxCandidates :
  result_of
    (Source.gather 0
       (mock_args EmptyString (user_params 2 5000 [] [])
          (Ok (JArray [snippet1; snippet2; snippet3])))
       ready_source [])
  = Ok (Source.convertToItems [snippet1; snippet2] (user_params 2 5000 [] [])).
Proof. vm_compute. reflexivity. Qed.

Example test_non_array_answer :
  result_of
    (Source.gather 0 (mock_args EmptyString Source.params (Ok (JStr "oops")))
       ready_source [])
  = Ok [].
Proof. vm_compute. reflexivity. Qed.

(** * Further properties of the code *)

(** ** [SnippetCache] on its own *)

Lemma cache_get_miss (now : Z) (key : string)
    (fetcher : M SnippetCache.t (list LuaSnipData)) (c : SnippetCache.t)
    (tr : list event) :
  fresh_entry c now key = None →
  SnippetCache.get now key fetcher c tr
  = match fetcher c tr with
    | (Ok snippets, c', tr') =>
        (Ok snippets,
         SnippetCache.set_entry key {| data := snippets; timestamp := now |} c',
         tr')
    | (Throw e, c', tr') => (Throw e, c', tr')
    end.
Proof.
  unfold SnippetCache.get, fresh_entry, bind, read, modify, ret. intros Hfresh.
  destruct (SnippetCache.cache c !! key) as [entry |];
    [destruct (now - timestamp entry <? SnippetCache.timeout c); [done |] |];
    by destruct (fetcher c tr) as [[[snippets | e] c'] tr'].
Qed.

Lemma fresh_entry_expired (c : SnippetCache.t) (now : Z) (key : string)
    (entry : CacheEntry) :
  SnippetCache.cache c !! key = Some entry →
  SnippetCache.timeout c ≤ now - timestamp entry →
  fresh_entry c now key = None.
Proof.
  intros Hentry Hage. unfold fresh_entry. rewrite Hentry.
  by destruct (Z.ltb_spec (now - timestamp entry) (SnippetCache.timeout c)); [lia |].
Qed.

Lemma fresh_entry_later (c : SnippetCache.t) (now now' : Z) (key : string) :
  now ≤ now' → fresh_entry c now key = None → fresh_entry c now' key = None.
Proof.
  unfold fresh_entry. intros Hclock.
  destruct (SnippetCache.cache c !! key) as [entry |]; [| done].
  destruct (Z.ltb_spec (now - timestamp entry) (SnippetCache.timeout c)); [done |].
  intros _.
  by destruct (Z.ltb_spec (now' - timestamp entry) (SnippetCache.timeout c)); [lia |].
Qed.

Lemma cache_get_hit (now : Z) (key : string)
    (fetcher : M SnippetCache.t (list LuaSnipData)) (c : SnippetCache.t)
    (tr : list event) (entry : CacheEntry) :
  SnippetCache.cache c !! key = Some entry →
  now - timestamp entry < SnippetCache.timeout c →
  SnippetCache.get now key fetcher c tr = (Ok (data entry), c, tr).
Proof.
  intros Hentry Hage. unfold SnippetCache.get, bind, read, ret.
  rewrite Hentry.
  by destruct (Z.ltb_spec (now - timestamp entry) (SnippetCache.timeout c)); [| lia].
Qed.

(** X1: an entry younger than the time-out is served as it is: whatever the
    fetcher would do, it is not run, and neither the cache nor the trace
    changes. *)
Theorem cache_hit_skips_fetcher (now : Z) (key : string)
    (fetcher : M SnippetCache.t (list LuaSnipData)) (c : SnippetCache.t)
    (tr : list event) (entry : CacheEntry) :
  SnippetCache.cache c !! key = Some entry →
  now - timestamp entry < SnippetCache.timeout c →
  SnippetCache.get now key fetcher c tr = (Ok (data entry), c, tr).
Proof. apply cache_get_hit. Qed.

Lemma cache_hit_skips_fetcher_witness :
  SnippetCache.get 4999 "lua"
    (constant_fetcher (Throw Thrown))
    (cache_of [("lua", {| data := [snippet1]; timestamp := 0 |})] 5000) []
  = (Ok [snippet1],
     cache_of [("lua", {| data := [snippet1]; timestamp := 0 |})] 5000, []).
Proof.
  apply (cache_hit_skips_fetcher 4999 "lua" (constant_fetcher (Throw Thrown))
           (cache_of [("lua", {| data := [snippet1]; timestamp := 0 |})] 5000)
           [] {| data := [snippet1]; timestamp := 0 |}).
  - reflexivity.
  - simpl. lia.
Defined.

(** X2: what a [get] fetches it serves afterwards: after a [get] that ran
    its fetcher at time [now], a [get] for the same key at any time less
    than the time-out later returns the fetched snippets without running
    its own fetcher. *)
Theorem cache_serves_what_it_fetched (now now' : Z) (key : string)
    (fetcher fetcher' : M SnippetCache.t (list LuaSnipData))
    (c c' : SnippetCache.t) (tr tr' tr'' : list event)
    (snippets : list LuaSnipData) :
  fresh_entry c now key = None →
  fetcher c tr = (Ok snippets, c', tr') →
  now' - now < SnippetCache.timeout c' →
  ∃ c'',
    SnippetCache.get now key fetcher c tr = (Ok snippets, c'', tr')
    ∧ SnippetCache.get now' key fetcher' c'' tr'' = (Ok snippets, c'', tr'').
Proof.
  intros Hfresh Hfetch Hage. eexists. split.
  - by rewrite cache_get_miss, Hfetch.
  - apply (cache_get_hit now' key fetcher' _ tr''
             {| data := snippets; timestamp := now |}); [| done].
    apply lookup_insert_eq.
Qed.

Lemma cache_serves_what_it_fetched_witness :
  ∃ c'',
    SnippetCache.get 0 "lua" (constant_fetcher (Ok [snippet1]))
      (SnippetCache.new None) [] = (Ok [snippet1], c'', [])
    ∧ SnippetCache.get 4999 "lua" (constant_fetcher (Ok [snippet2])) c'' []
      = (Ok [snippet1], c'', []).
Proof.
  apply (cache_serves_what_it_fetched 0 4999 "lua"
           (constant_fetcher (Ok [snippet1])) (constant_fetcher (Ok [snippet2]))
           (SnippetCache.new None) (SnippetCache.new None) [] [] [] [snippet1]).
  - reflexivity.
  - reflexivity.
  - simpl. lia.
Defined.

(** X3: an entry whose age has reached the time-out (the boundary
    included) is not served: the fetcher runs, its result replaces the
    entry under that key, and the entries of all other keys and the
    time-out are as the fetcher left them. *)
Theorem cache_expired_entry_replaced (now : Z) (key : string)
    (fetcher : M SnippetCache.t (list LuaSnipData)) (c c' : SnippetCache.t)
    (tr tr' : list event) (entry : CacheEntry) (snippets : list LuaSnipData) :
  SnippetCache.cache c !! key = Some entry →
  SnippetCache.timeout c ≤ now - timestamp entry →
  fetcher c tr = (Ok snippets, c', tr') →
  ∃ c'',
    SnippetCache.get now key fetcher c tr = (Ok snippets, c'', tr')
    ∧ SnippetCache.cache c'' !! key
      = Some {| data := snippets; timestamp := now |}
    ∧ (∀ key', key' ≠ key →
         SnippetCache.cache c'' !! key' = SnippetCache.cache c' !! key')
    ∧ SnippetCache.timeout c'' = SnippetCache.timeout c'.
Proof.
  intros Hentry Hage Hfetch. eexists. split.
  - rewrite cache_get_miss by by eapply fresh_entry_expired. by rewrite Hfetch.
  - cbn [SnippetCache.set_entry SnippetCache.cache SnippetCache.timeout].
    split; [apply lookup_insert_eq |]. split; [| done].
    intros key' Hne. by rewrite lookup_insert_ne.
Qed.

Lemma cache_expired_entry_replaced_witness :
  ∃ c'',
    SnippetCache.get 5000 "lua" (constant_fetcher (Ok [snippet2]))
      (cache_of [("lua", {| data := [snippet1]; timestamp := 0 |})] 5000) []
    = (Ok [snippet2], c'', [])
    ∧ SnippetCache.cache c'' !! "lua"
      = Some {| data := [snippet2]; timestamp := 5000 |}
    ∧ (∀ key', key' ≠ "lua" →
         SnippetCache.cache c'' !! key'
         = SnippetCache.cache
             (cache_of [("lua", {| data := [snippet1]; timestamp := 0 |})] 5000)
           !! key')
    ∧ SnippetCache.timeout c''
      = SnippetCache.timeout
          (cache_of [("lua", {| data := [snippet1]; timestamp := 0 |})] 5000).
Proof.
  apply (cache_expired_entry_replaced 5000 "lua"
           (constant_fetcher (Ok [snippet2]))
           (cache_of [("lua", {| data := [snippet1]; timestamp := 0 |})] 5000)
           (cache_of [("lua", {| data := [snippet1]; timestamp := 0 |})] 5000)
           [] [] {| data := [snippet1]; timestamp := 0 |} [snippet2]).
  - reflexivity.
  - simpl. lia.
  - reflexivity.
Defined.

(** X4: a [get] whose fetcher throws passes the exception on and writes no
    entry; as long as the clock does not run backwards, the next [get] for
    that key runs its fetcher again. *)
Theorem cache_failed_get_retried (now now' : Z) (key : string)
    (fetcher fetcher' : M SnippetCache.t (list LuaSnipData))
    (c : SnippetCache.t) (tr tr' tr'' : list event) (e : exn) :
  fresh_entry c now key = None →
  fetcher c tr = (Throw e, c, tr') →
  now ≤ now' →
  SnippetCache.get now key fetcher c tr = (Throw e, c, tr')
  ∧ SnippetCache.get now' key fetcher' c tr''
    = match fetcher' c tr'' with
      | (Ok snippets, c', tr3) =>
          (Ok snippets,
           SnippetCache.set_entry key {| data := snippets; timestamp := now' |} c',
           tr3)
      | (Throw e', c', tr3) => (Throw e', c', tr3)
      end.
Proof.
  intros Hfresh Hfetch Hclock. split.
  - by rewrite cache_get_miss, Hfetch.
  - apply cache_get_miss. by eapply fresh_entry_later.
Qed.

Lemma cache_failed_get_retried_witness :
  SnippetCache.get 0 "lua" (constant_fetcher (Throw Thrown))
    (SnippetCache.new None) []
  = (Throw Thrown, SnippetCache.new None, [])
  ∧ SnippetCache.get 1 "lua" (constant_fetcher (Ok [snippet1]))
      (SnippetCache.new None) []
    = (Ok [snippet1],
       SnippetCache.set_entry "lua" {| data := [snippet1]; timestamp := 1 |}
         (SnippetCache.new None),
       []).
Proof.
  apply (cache_failed_get_retried 0 1 "lua" (constant_fetcher (Throw Thrown))
           (constant_fetcher (Ok [snippet1])) (SnippetCache.new None)
           [] [] [] Thrown).
  - reflexivity.
  - reflexivity.
  - lia.
Defined.

(** X5: [invalidate] with a non-empty key removes the entry of that key
    and nothing else; the next [get] for the key runs its fetcher, whatever
    the clock reads. *)
Theorem invalidate_key_forgets_it (key : string) (c : SnippetCache.t)
    (now : Z) (fetcher : M SnippetCache.t (list LuaSnipData))
    (tr : list event) :
  key ≠ EmptyString →
  SnippetCache.cache (SnippetCache.invalidate (Some key) c) !! key = None
  ∧ (∀ key', key' ≠ key →
       SnippetCache.cache (SnippetCache.invalidate (Some key) c) !! key'
       = SnippetCache.cache c !! key')
  ∧ SnippetCache.timeout (SnippetCache.invalidate (Some key) c)
    = SnippetCache.timeout c
  ∧ SnippetCache.get now key fetcher (SnippetCache.invalidate (Some key) c) tr
    = match fetcher (SnippetCache.invalidate (Some key) c) tr with
      | (Ok snippets, c', tr') =>
          (Ok snippets,
           SnippetCache.set_entry key {| data := snippets; timestamp := now |} c',
           tr')
      | (Throw e, c', tr') => (Throw e, c', tr')
      end.
Proof.
  intros Hkey. unfold SnippetCache.invalidate.
  assert (Htruthy : JS.truthy_opt (Some key) = true) by by destruct key.
  rewrite Htruthy. cbn [from_option id SnippetCache.cache SnippetCache.timeout].
  split; [apply lookup_delete_eq |]. split; [| split; [done |]].
  - intros key' Hne. by rewrite lookup_delete_ne.
  - apply cache_get_miss. unfold fresh_entry. cbn [SnippetCache.cache].
    by rewrite lookup_delete_eq.
Qed.

Lemma invalidate_key_forgets_it_witness :
  SnippetCache.cache
    (SnippetCache.invalidate (Some "lua")
       (cache_of [("lua", {| data := [snippet1]; timestamp := 0 |})] 5000))
    !! "lua" = None.
Proof.
  destruct (invalidate_key_forgets_it "lua"
              (cache_of [("lua", {| data := [snippet1]; timestamp := 0 |})] 5000)
              0 (constant_fetcher (Ok [])) []) as [Hgone _].
  - discriminate.
  - exact Hgone.
Defined.

(** X6: [invalidate] without a key empties the cache, and so does
    [invalidate] with the empty string as key: the entries of all keys are
    gone, not only an entry stored under the empty string. *)
Theorem invalidate_empty_key_clears_all (c : SnippetCache.t) (key : string) :
  SnippetCache.invalidate (Some EmptyString) c = SnippetCache.invalidate None c
  ∧ SnippetCache.cache (SnippetCache.invalidate None c) !! key = None
  ∧ SnippetCache.timeout (SnippetCache.invalidate None c) = SnippetCache.timeout c.
Proof. split; [done |]. split; [apply lookup_empty | done]. Qed.

(** ** [Source]: state *)

Lemma isLuaSnipAvailable_run {S} (d : Denops) (s : S) (tr : list event) :
  LuaSnipInterface.isLuaSnipAvailable d s tr
  = (Ok (available d), s,
     tr ++ [Call "luaeval" LuaSnipInterface.isLuaSnipAvailable_luaCode]).
Proof.
  unfold LuaSnipInterface.isLuaSnipAvailable, available, try_catch, bind, call,
    ret.
  by destruct (denops_call d _ _).
Qed.

Lemma onInit_state (d : Denops) (this : Source.t) (tr : list event) :
  state_of (Source.onInit d this tr)
  = if available d then Source.set_isInitialized true this else this.
Proof.
  rewrite onInit_run, isLuaSnipAvailable_run. cbn [result_of fst snd].
  by destruct (available d).
Qed.

Lemma gather_keeps_flag (now : Z) (args : GatherArguments) (this : Source.t)
    (tr : list event) :
  Source.isInitialized (state_of (Source.gather now args this tr))
  = Source.isInitialized this.
Proof.
  rewrite gather_run. destruct (negb (Source.isInitialized this)); [done |].
  destruct (denops_eval (denops args) _) as [reported | e]; [| done].
  cbn zeta. rewrite source_getSnippets_run.
  destruct (restricted _ _); [done |].
  destruct (enableCache _); [| done].
  by destruct (fresh_entry _ _ _).
Qed.

(** X7: [onInit] never throws and never touches the cache; afterwards the
    instance is initialised exactly when it was before or the check found
    the engine.  So a later [onInit] that finds no engine does not take an
    initialised instance back. *)
Theorem onInit_only_raises_flag (d : Denops) (this : Source.t)
    (tr : list event) :
  result_of (Source.onInit d this tr) = Ok tt
  ∧ Source.isInitialized (state_of (Source.onInit d this tr))
    = Source.isInitialized this || available d
  ∧ Source.cache (state_of (Source.onInit d this tr)) = Source.cache this.
Proof.
  rewrite onInit_run, isLuaSnipAvailable_run. cbn [result_of fst snd].
  destruct (available d); cbn [result_of state_of fst snd].
  - by rewrite orb_true_r.
  - by rewrite orb_false_r.
Qed.

(** X8: a [gather] call leaves the initialisation flag alone, removes no
    cache entry, and changes no entry but that of the call's own context
    key (none at all when the file type cannot be read). *)
Theorem gather_touches_only_its_key (now : Z) (args : GatherArguments)
    (this : Source.t) (tr : list event) :
  Source.isInitialized (state_of (Source.gather now args this tr))
  = Source.isInitialized this
  ∧ (∀ key,
       is_Some (SnippetCache.cache (Source.cache this) !! key) →
       is_Some (SnippetCache.cache
                  (Source.cache (state_of (Source.gather now args this tr)))
                !! key))
  ∧ (∀ key,
       (∀ reported,
          denops_eval (denops args) "&filetype" = Ok reported →
          key ≠ context_key reported) →
       SnippetCache.cache
         (Source.cache (state_of (Source.gather now args this tr))) !! key
       = SnippetCache.cache (Source.cache this) !! key).
Proof.
  rewrite gather_run. destruct (negb (Source.isInitialized this)); [done |].
  destruct (denops_eval (denops args) _) as [reported | e]; [| done].
  cbn zeta. rewrite source_getSnippets_run.
  destruct (restricted _ _); [done |].
  destruct (enableCache _); [| done].
  destruct (fresh_entry _ _ _); [done |]. project_run.
  cbn [Source.set_cache Source.isInitialized Source.cache
       SnippetCache.set_entry SnippetCache.cache].
  split; [done |]. split.
  - intros key Hsome.
    destruct (decide (context_key reported = key)) as [-> | Hne].
    + rewrite lookup_insert_eq. by eexists.
    + by rewrite lookup_insert_ne.
  - intros key Hkey. rewrite lookup_insert_ne; [done |].
    intros Heq. by apply (Hkey reported).
Qed.

(** X9: with caching disabled a [gather] call leaves the instance exactly
    as it was, and every call that gets as far as retrieval invokes the
    fetch: the call's events are the file type read followed by one fetch,
    and the candidates come from what that fetch returned. *)
Theorem gather_uncached_always_fetches (now : Z) (args : GatherArguments)
    (this : Source.t) (tr : list event) :
  enableCache (sourceParams args) = false →
  state_of (Source.gather now args this tr) = this
  ∧ ∀ reported,
      Source.isInitialized this = true →
      denops_eval (denops args) "&filetype" = Ok reported →
      key_allowed (sourceParams args) (context_key reported) →
      Source.gather now args this tr
      = (Ok (JS.slice0
               (Source.convertToItems
                  (Source.filterSnippets
                     (fetched (denops args) (context_key reported))
                     (input (context args)))
                  (sourceParams args))
               (maxCandidates (sourceParams args))),
         this,
         (tr ++ [EvalExpr "&filetype"])
         ++ fetch_trace (denops args) (context_key reported)).
Proof.
  intros Hcache. split.
  - rewrite gather_run. destruct (negb (Source.isInitialized this)); [done |].
    destruct (denops_eval (denops args) _) as [reported | e]; [| done].
    cbn zeta. rewrite source_getSnippets_run, Hcache.
    by destruct (restricted _ _).
  - intros reported Hready Heval Hallowed. apply restricted_false in Hallowed.
    rewrite gather_run, Hready, Heval. cbn [negb]. cbn zeta.
    by rewrite source_getSnippets_run, Hallowed, Hcache.
Qed.

Lemma gather_uncached_always_fetches_witness :
  state_of
    (Source.gather 0
       (with_params
          (mock_args EmptyString Source.params (Ok (JArray [snippet1])))
          (with_informational
             {| mark := "[LS]"; dup := false; maxCandidates := 500;
                enableCache := false; cacheTimeout := 5000; filetypes := [];
                excludeFiletypes := []; showCondition := true;
                enableRegexTrigger := true; debug := false |}
             true true false))
       ready_source [])
  = ready_source.
Proof.
  apply (gather_uncached_always_fetches 0
           (with_params
              (mock_args EmptyString Source.params (Ok (JArray [snippet1])))
              (with_informational
                 {| mark := "[LS]"; dup := false; maxCandidates := 500;
                    enableCache := false; cacheTimeout := 5000; filetypes := [];
                    excludeFiletypes := []; showCondition := true;
                    enableRegexTrigger := true; debug := false |}
                 true true false))
           ready_source []).
  reflexivity.
Defined.

Lemma reachable_invariant_timeout (this : Source.t) :
  reachable this → SnippetCache.timeout (Source.cache this) = 5000.
Proof.
  induction 1 as [| d this tr _ IH | now args this tr _ IH].
  - done.
  - rewrite onInit_state. by destruct (available d).
  - by rewrite gather_keeps_timeout.
Qed.

(** X10: in every instance a session can reach, the cache's time-out is
    5000, whatever the configurations of the calls said, and as long as
    the instance is not initialised its cache is empty. *)
Theorem reachable_invariant (this : Source.t) :
  reachable this →
  SnippetCache.timeout (Source.cache this) = 5000
  ∧ (Source.isInitialized this = false →
     SnippetCache.cache (Source.cache this) = ∅).
Proof.
  induction 1 as [| d this tr _ [IHtimeout IHempty]
                  | now args this tr _ [IHtimeout IHempty]].
  - done.
  - rewrite onInit_state. destruct (available d); [done |]. auto.
  - rewrite gather_keeps_timeout, gather_keeps_flag. split; [done |].
    intros Hoff. rewrite gather_uninitialized by done. auto.
Qed.

Lemma reachable_invariant_witness :
  SnippetCache.timeout
    (Source.cache
       (state_of
          (Source.gather 0
             (mock_args EmptyString (user_params 500 1000 [] []) (Ok (JArray [snippet1])))
             ready_source [])))
  = 5000.
Proof.
  apply (reachable_invariant
           (state_of
              (Source.gather 0
                 (mock_args EmptyString (user_params 500 1000 [] [])
                    (Ok (JArray [snippet1])))
                 ready_source []))).
  apply reachable_gather. apply reachable_onInit. apply reachable_new.
Defined.

(** ** [Source]: calls in sequence *)

(** X11: asking twice gives the same answer.  When the cache holds no
    entry young enough for the call's key, a second [gather] with the same
    arguments (the same bridge, input and configuration) returns the same
    candidates as the first, whatever the clock reads at the second call. *)
Theorem gather_twice_same_candidates (now now' : Z) (args : GatherArguments)
    (this : Source.t) (tr tr' : list event) :
  (∀ reported,
     denops_eval (denops args) "&filetype" = Ok reported →
     fresh_entry (Source.cache this) now (context_key reported) = None) →
  result_of
    (Source.gather now' args (state_of (Source.gather now args this tr)) tr')
  = result_of (Source.gather now args this tr).
Proof.
  intros Hfresh. rewrite (gather_run now' args), gather_keeps_flag.
  rewrite (gather_run now args).
  destruct (negb (Source.isInitialized this)); [done |].
  destruct (denops_eval (denops args) "&filetype") as [reported | e] eqn:Heval;
    [| done].
  specialize (Hfresh reported eq_refl). cbn zeta.
  rewrite (source_getSnippets_run now), Hfresh.
  destruct (restricted (sourceParams args) (context_key reported)) eqn:Hres.
  { project_run. by rewrite source_getSnippets_run, Hres. }
  destruct (enableCache (sourceParams args)) eqn:Hcache.
  - project_run. rewrite source_getSnippets_run, Hres, Hcache.
    unfold fresh_entry at 1.
    cbn [Source.set_cache Source.cache SnippetCache.set_entry
         SnippetCache.cache SnippetCache.timeout].
    rewrite lookup_insert_eq. cbn [timestamp].
    by destruct (now' - now <? SnippetCache.timeout (Source.cache this)).
  - project_run. by rewrite source_getSnippets_run, Hres, Hcache.
Qed.

Lemma gather_twice_same_candidates_witness :
  result_of
    (Source.gather 9000
       (mock_args "fun" Source.params (Ok (JArray [snip_function; snip_variable])))
       (state_of
          (Source.gather 0
             (mock_args "fun" Source.params
                (Ok (JArray [snip_function; snip_variable])))
             ready_source []))
       [])
  = result_of
      (Source.gather 0
         (mock_args "fun" Source.params
            (Ok (JArray [snip_function; snip_variable])))
         ready_source []).
Proof.
  apply (gather_twice_same_candidates 0 9000
           (mock_args "fun" Source.params
              (Ok (JArray [snip_function; snip_variable])))
           ready_source [] []).
  intros reported _. reflexivity.
Defined.

(** X12: the window in force.  In any session, after a [gather] that
    fetched for a key at time [now], a cached [gather] for the same key
    less than 5000 ms later makes no bridge call beyond reading the file
    type and builds its candidates from the snippets fetched before, and
    one 5000 ms later or more fetches again. *)
Theorem cache_window_is_5000 (now now' : Z) (args args' : GatherArguments)
    (this : Source.t) (tr tr' : list event) (key : string) :
  reachable this →
  Source.isInitialized this = true →
  (∃ reported,
     denops_eval (denops args) "&filetype" = Ok reported
     ∧ context_key reported = key) →
  (∃ reported',
     denops_eval (denops args') "&filetype" = Ok reported'
     ∧ context_key reported' = key) →
  key_allowed (sourceParams args) key →
  key_allowed (sourceParams args') key →
  enableCache (sourceParams args) = true →
  enableCache (sourceParams args') = true →
  fresh_entry (Source.cache this) now key = None →
  (now' - now < 5000 →
   Source.gather now' args' (state_of (Source.gather now args this tr)) tr'
   = (Ok (JS.slice0
            (Source.convertToItems
               (Source.filterSnippets (fetched (denops args) key)
                  (input (context args')))
               (sourceParams args'))
            (maxCandidates (sourceParams args'))),
      state_of (Source.gather now args this tr),
      tr' ++ [EvalExpr "&filetype"]))
  ∧ (5000 ≤ now' - now →
     trace_of
       (Source.gather now' args' (state_of (Source.gather now args this tr)) tr')
     = (tr' ++ [EvalExpr "&filetype"]) ++ fetch_trace (denops args') key).
Proof.
  intros Hreach Hready (reported & Heval & Hkey) (reported' & Heval' & Hkey')
    Hallowed Hallowed' Hcache Hcache' Hfresh.
  apply reachable_invariant_timeout in Hreach.
  apply restricted_false in Hallowed, Hallowed'.
  rewrite (gather_run now args), Hready, Heval, Hkey. cbn [negb]. cbn zeta.
  rewrite source_getSnippets_run, Hallowed, Hcache, Hfresh. project_run.
  split; intros Hage.
  - rewrite gather_run. cbn [Source.set_cache Source.isInitialized].
    rewrite Hready, Heval', Hkey'. cbn [negb]. cbn zeta.
    rewrite source_getSnippets_run, Hallowed', Hcache'.
    cbn [Source.set_cache Source.cache].
    rewrite fresh_entry_after_store by (cbn [timestamp]; lia).
    by project_run.
  - rewrite gather_run. cbn [Source.set_cache Source.isInitialized].
    rewrite Hready, Heval', Hkey'. cbn [negb]. cbn zeta.
    rewrite source_getSnippets_run, Hallowed', Hcache'.
    cbn [Source.set_cache Source.cache].
    erewrite fresh_entry_expired; [by project_run | apply lookup_insert_eq |].
    cbn [SnippetCache.set_entry SnippetCache.timeout timestamp]. lia.
Qed.

Lemma cache_window_is_5000_witness :
  trace_of
    (Source.gather 2000
       (mock_args EmptyString (user_params 500 1000 [] [])
          (Ok (JArray [snip_variable])))
       (state_of
          (Source.gather 0
             (mock_args EmptyString (user_params 500 1000 [] [])
                (Ok (JArray [snip_function])))
             ready_source []))
       [])
  = [EvalExpr "&filetype"].
Proof.
  destruct (cache_window_is_5000 0 2000
              (mock_args EmptyString (user_params 500 1000 [] [])
                 (Ok (JArray [snip_function])))
              (mock_args EmptyString (user_params 500 1000 [] [])
                 (Ok (JArray [snip_variable])))
              ready_source [] [] "typescript") as [Hinside _].
  - apply reachable_onInit, reachable_new.
  - reflexivity.
  - exists "typescript". split; reflexivity.
  - exists "typescript". split; reflexivity.
  - split; [by left | apply not_elem_of_nil].
  - split; [by left | apply not_elem_of_nil].
  - reflexivity.
  - reflexivity.
  - reflexivity.
  - rewrite Hinside by lia. reflexivity.
Defined.

(** ** [Source]: errors and the bridge *)

(** X13: [handleError] never throws and changes nothing; it writes exactly
    one console line, a warning or an error, and the line is a warning
    exactly when the thrown value is an [Error] whose message contains
    ["LuaSnip not found"]. *)
Theorem handleError_one_line (error : exn) (this : Source.t)
    (tr : list event) :
  ∃ line,
    Source.handleError error this tr = (Ok tt, this, tr ++ [line])
    ∧ (∃ msg, line = ConsoleWarn msg ∨ line = ConsoleError msg)
    ∧ ((∃ msg, line = ConsoleWarn msg)
       ↔ ∃ message, error = ErrorObject message
                    ∧ Contains message "LuaSnip not found").
Proof.
  unfold Source.handleError, emit. destruct error as [message |].
  - destruct (JS.includes message "LuaSnip not found") eqn:Hfound.
    + apply includes_spec in Hfound. eexists. split; [done |].
      split; [eexists; by left |].
      split; [intros _; by exists message | intros _; by eexists].
    + assert (Hnot : ¬ Contains message "LuaSnip not found").
      { rewrite <- includes_spec. congruence. }
      destruct (JS.includes message "Lua execution error"); eexists;
        (split; [done |]); (split; [eexists; by right |]);
        (split; [intros [msg [=]] | intros (message' & [= <-] & Hc); done]).
  - eexists. split; [done |]. split; [eexists; by right |].
    split; [intros [msg [=]] | intros (message & [=] & _)].
Qed.

(** X14: when reading the file type fails, an initialised [gather] stops
    there: it returns the empty sequence, leaves the instance as it was,
    logs one error line and makes no [luaeval] call, so the next call
    starts from the same state. *)
Theorem gather_context_read_failure (now : Z) (args : GatherArguments)
    (this : Source.t) (tr : list event) (e : exn) :
  Source.isInitialized this = true →
  denops_eval (denops args) "&filetype" = Throw e →
  Source.gather now args this tr
  = (Ok [], this,
     tr ++ [EvalExpr "&filetype";
            ConsoleError "[ddc-source-luasnip] Context analysis failed:"]).
Proof. intros Hready Heval. by rewrite gather_run, Hready, Heval. Qed.

Lemma gather_context_read_failure_witness :
  Source.gather 0
    {| denops :=
         {| denops_eval := fun _ => Throw (ErrorObject "E5108");
            denops_call := fun _ _ => Ok (JArray [snippet1]) |};
       context := {| input := "sn" |};
       sourceParams := Source.params |}
    ready_source []
  = (Ok [], ready_source,
     [EvalExpr "&filetype";
      ConsoleError "[ddc-source-luasnip] Context analysis failed:"]).
Proof.
  apply (gather_context_read_failure 0
           {| denops :=
                {| denops_eval := fun _ => Throw (ErrorObject "E5108");
                   denops_call := fun _ _ => Ok (JArray [snippet1]) |};
              context := {| input := "sn" |};
              sourceParams := Source.params |}
           ready_source [] (ErrorObject "E5108")); reflexivity.
Defined.

(** X15: a [gather] call only appends to the trace, and its round trips
    over the bridge are, in this order, at most one [denops.eval] of
    [&filetype] and then at most one [denops.call]: a [luaeval] of the
    snippet chunk for the call's own context key. *)
Theorem gather_bridge_round_trips (now : Z) (args : GatherArguments)
    (this : Source.t) (tr : list event) :
  ∃ new,
    trace_of (Source.gather now args this tr) = tr ++ new
    ∧ (List.filter is_bridge_call new = []
       ∨ List.filter is_bridge_call new = [EvalExpr "&filetype"]
       ∨ ∃ reported,
           denops_eval (denops args) "&filetype" = Ok reported
           ∧ List.filter is_bridge_call new
             = [EvalExpr "&filetype";
                Call "luaeval"
                  (LuaSnipInterface.getSnippets_luaCode (context_key reported))]).
Proof.
  rewrite gather_run. destruct (negb (Source.isInitialized this)).
  { exists []. rewrite app_nil_r. split; [done |]. by left. }
  destruct (denops_eval (denops args) "&filetype") as [reported | e].
  2:{ eexists. split; [done |]. right. by left. }
  cbn zeta. rewrite source_getSnippets_run.
  assert (Hfetch :
    List.filter is_bridge_call
      ([EvalExpr "&filetype"] ++ fetch_trace (denops args) (context_key reported))
    = [EvalExpr "&filetype";
       Call "luaeval"
         (LuaSnipInterface.getSnippets_luaCode (context_key reported))]).
  { unfold fetch_trace. by destruct (denops_call _ _ _). }
  destruct (restricted _ _).
  { exists [EvalExpr "&filetype"]. split; [done |]. right. by left. }
  destruct (enableCache _).
  - destruct (fresh_entry _ _ _); project_run.
    + exists [EvalExpr "&filetype"]. split; [done |]. right. by left.
    + eexists. rewrite <- app_assoc. split; [done |]. right. right.
      by exists reported.
  - project_run. eexists. rewrite <- app_assoc. split; [done |]. right. right.
    by exists reported.
Qed.

(** ** Filtering, conversion and truncation *)

Lemma List_filter_twice {A} (f : A → bool) (l : list A) :
  List.filter f (List.filter f l) = List.filter f l.
Proof.
  induction l as [| x l IH]; simpl; [done |].
  destruct (f x) eqn:Hx; simpl; [| done]. by rewrite Hx, IH.
Qed.

(** X16: filtering is idempotent: filtering the survivors again with the
    same typed text drops nothing more. *)
Theorem filterSnippets_idempotent (snippets : list LuaSnipData) (typed : string) :
  Source.filterSnippets (Source.filterSnippets snippets typed) typed
  = Source.filterSnippets snippets typed.
Proof.
  unfold Source.filterSnippets. destruct (negb _); [done |].
  apply List_filter_twice.
Qed.

(** X17: every snippet is judged on its own: filtering a concatenation is
    concatenating the filtered parts, so whether a snippet survives does
    not depend on the other snippets retrieved with it. *)
Theorem filterSnippets_app (snippets1 snippets2 : list LuaSnipData)
    (typed : string) :
  Source.filterSnippets (snippets1 ++ snippets2) typed
  = Source.filterSnippets snippets1 typed ++ Source.filterSnippets snippets2 typed.
Proof.
  unfold Source.filterSnippets. destruct (negb _); [done |].
  apply List.filter_app.
Qed.

Lemma is_white_lower_char (c : ascii) :
  JS.is_white (JS.lower_char c) = JS.is_white c.
Proof. by destruct c as [[] [] [] [] [] [] [] []]. Qed.

Lemma trimEnd_nonwhite_head (c : ascii) (s : string) :
  JS.is_white c = false → JS.is_empty (JS.trimEnd (String c s)) = false.
Proof. intros Hc. cbn [JS.trimEnd]. by rewrite Hc. Qed.

Lemma trim_empty_lower (s : string) :
  JS.is_empty (JS.trim (JS.toLowerCase s)) = JS.is_empty (JS.trim s).
Proof.
  unfold JS.trim. induction s as [| c s IH]; [done |].
  cbn [JS.toLowerCase JS.trimStart]. rewrite is_white_lower_char.
  destruct (JS.is_white c) eqn:Hc; [done |].
  rewrite !trimEnd_nonwhite_head; [done.. |]. by rewrite is_white_lower_char.
Qed.

(** X18: the case of the typed text does not matter: two typed texts with
    the same lower-case form leave the same survivors. *)
Theorem filterSnippets_case_of_input (snippets : list LuaSnipData)
    (typed typed' : string) :
  JS.toLowerCase typed = JS.toLowerCase typed' →
  Source.filterSnippets snippets typed = Source.filterSnippets snippets typed'.
Proof.
  intros Hlower. unfold Source.filterSnippets, JS.truthy.
  rewrite <- (trim_empty_lower typed), <- (trim_empty_lower typed'), Hlower.
  by destruct (negb _).
Qed.

Lemma filterSnippets_case_of_input_witness :
  Source.filterSnippets [snip_function; snip_variable] "FUN"
  = Source.filterSnippets [snip_function; snip_variable] "fun".
Proof.
  apply (filterSnippets_case_of_input [snip_function; snip_variable] "FUN" "fun").
  reflexivity.
Defined.

Lemma List_filter_sublist {A} (f : A → bool) (l : list A) :
  List.filter f l `sublist_of` l.
Proof.
  induction l as [| x l IH]; simpl; [constructor |].
  destruct (f x); by constructor.
Qed.

Lemma List_map_sublist {A B} (f : A → B) (l1 l2 : list A) :
  l1 `sublist_of` l2 → List.map f l1 `sublist_of` List.map f l2.
Proof. induction 1; simpl; by constructor. Qed.

Lemma filterSnippets_sublist (snippets : list LuaSnipData) (typed : string) :
  Source.filterSnippets snippets typed `sublist_of` snippets.
Proof.
  unfold Source.filterSnippets. destruct (negb _); [done |].
  apply List_filter_sublist.
Qed.

Lemma convertToItems_words (snippets : list LuaSnipData) (p : Params) :
  List.map Item.word (Source.convertToItems snippets p)
  = List.map trigger snippets.
Proof.
  unfold Source.convertToItems. rewrite List.map_map. by apply map_ext.
Qed.

(** X19: the words [gather] returns are triggers of the retrieved
    snippets, in retrieval order: a subsequence of the triggers, nothing
    added, nothing moved. *)
Theorem gather_words_in_retrieval_order (now : Z) (args : GatherArguments)
    (this : Source.t) (tr : list event) :
  List.map Item.word (returned (Source.gather now args this tr))
  `sublist_of` List.map trigger (retrieved now args this tr).
Proof.
  unfold returned. rewrite gather_result.
  etrans; [apply List_map_sublist, sublist_take |].
  rewrite convertToItems_words. apply List_map_sublist, filterSnippets_sublist.
Qed.

(** X20: a negative [maxCandidates] counts from the end: [gather] returns
    the converted survivors without their last [-maxCandidates] items (none
    at all when there are no more than that). *)
Theorem gather_negative_maxCandidates (now : Z) (args : GatherArguments)
    (this : Source.t) (tr : list event) :
  maxCandidates (sourceParams args) < 0 →
  result_of (Source.gather now args this tr)
  = Ok (take
          (length
             (Source.filterSnippets (retrieved now args this tr)
                (input (context args)))
           - Z.to_nat (- maxCandidates (sourceParams args)))
          (Source.convertToItems
             (Source.filterSnippets (retrieved now args this tr)
                (input (context args)))
             (sourceParams args))).
Proof.
  intros Hneg. rewrite gather_result. f_equal. unfold JS.slice0.
  destruct (Z.ltb_spec (maxCandidates (sourceParams args)) 0); [| lia].
  f_equal. unfold Source.convertToItems. rewrite List.length_map. lia.
Qed.

Lemma gather_negative_maxCandidates_witness :
  result_of
    (Source.gather 0
       (mock_args EmptyString (user_params (-2) 5000 [] [])
          (Ok (JArray [snippet1; snippet2; snippet3])))
       ready_source [])
  = Ok (Source.convertToItems [snippet1] (user_params (-2) 5000 [] [])).
Proof.
  apply (gather_negative_maxCandidates 0
           (mock_args EmptyString (user_params (-2) 5000 [] [])
              (Ok (JArray [snippet1; snippet2; snippet3])))
           ready_source []).
  simpl. lia.
Defined.

(** X21: when [maxCandidates] is at least the number of survivors, nothing
    is cut: [gather] returns a candidate for every survivor. *)
Theorem gather_within_limit_returns_all (now : Z) (args : GatherArguments)
    (this : Source.t) (tr : list event) :
  Z.of_nat
    (length (Source.filterSnippets (retrieved now args this tr)
               (input (context args))))
  ≤ maxCandidates (sourceParams args) →
  result_of (Source.gather now args this tr)
  = Ok (Source.convertToItems
          (Source.filterSnippets (retrieved now args this tr)
             (input (context args)))
          (sourceParams args)).
Proof.
  intros Hmax. rewrite gather_result, slice0_nonneg by lia. f_equal.
  apply take_ge. unfold Source.convertToItems. rewrite List.length_map. lia.
Qed.

Lemma gather_within_limit_returns_all_witness :
  result_of
    (Source.gather 0
       (mock_args EmptyString Source.params
          (Ok (JArray [snippet1; snippet2; snippet3])))
       ready_source [])
  = Ok (Source.convertToItems [snippet1; snippet2; snippet3] Source.params).
Proof.
  apply (gather_within_limit_returns_all 0
           (mock_args EmptyString Source.params
              (Ok (JArray [snippet1; snippet2; snippet3])))
           ready_source []).
  vm_compute. discriminate.
Defined.

Lemma trimEnd_app_space (s : string) :
  JS.trimEnd (s +:+ " ") = JS.trimEnd s.
Proof.
  induction s as [| c s IH]; [done |]. simpl. by rewrite IH.
Qed.

Lemma trim_app_space (s : string) : JS.trim (s +:+ " ") = JS.trim s.
Proof.
  unfold JS.trim. induction s as [| c s IH]; [done |].
  change (String c s +:+ " ") with (String c (s +:+ " ")).
  cbn [JS.trimStart]. destruct (JS.is_white c); [done |].
  apply (trimEnd_app_space (String c s)).
Qed.

(** X22: for a snippet without a description (missing or empty) the menu
    text is the configured mark with the white space at its ends removed;
    for the default mark that is ["[LS]"]. *)
Theorem menu_without_description (p : Params) (snippet : LuaSnipData) :
  present (description snippet) = None →
  Item.menu (Source.convert_callback p snippet) = JS.trim (mark p).
Proof.
  intros Habsent. cbn [Source.convert_callback Item.menu].
  rewrite or_else_present, Habsent. cbn [from_option].
  apply trim_app_space.
Qed.

Lemma menu_without_description_witness :
  Item.menu (Source.convert_callback Source.params snippet1) = "[LS]".
Proof.
  rewrite (menu_without_description Source.params snippet1); reflexivity.
Defined.

Lemma convert_callback_without_blanks (p : Params) (snippet : LuaSnipData) :
  Source.convert_callback p (without_blanks snippet)
  = Source.convert_callback p snippet.
Proof.
  destruct snippet as [trig nm descr wt rt ft].
  destruct nm as [[|c1 nm]|], descr as [[|c2 descr]|],
    wt as [[|]|], rt as [[|]|]; reflexivity.
Qed.

Lemma filter_callback_without_blanks (inputLower : string)
    (snippet : LuaSnipData) :
  Source.filter_callback inputLower (without_blanks snippet)
  = Source.filter_callback inputLower snippet.
Proof.
  destruct snippet as [trig nm descr wt rt ft].
  by destruct nm as [[|c1 nm]|].
Qed.

Lemma List_filter_map {A B} (f : A → B) (g : B → bool) (h : A → bool)
    (l : list A) :
  (∀ x, g (f x) = h x) →
  List.filter g (List.map f l) = List.map f (List.filter h l).
Proof.
  intros Hgh. induction l as [| x l IH]; simpl; [done |].
  rewrite Hgh. destruct (h x); simpl; by rewrite IH.
Qed.

(** X23: an empty name or description counts as a missing one, and a false
    flag as a missing flag, all the way through: leaving such fields out of
    the retrieved snippets changes neither which snippets survive the
    filter nor any candidate. *)
Theorem blanks_are_missing (snippets : list LuaSnipData) (typed : string)
    (p : Params) :
  Source.filterSnippets (List.map without_blanks snippets) typed
  = List.map without_blanks (Source.filterSnippets snippets typed)
  ∧ Source.convertToItems
      (Source.filterSnippets (List.map without_blanks snippets) typed) p
    = Source.convertToItems (Source.filterSnippets snippets typed) p.
Proof.
  assert (Hfilter :
    Source.filterSnippets (List.map without_blanks snippets) typed
    = List.map without_blanks (Source.filterSnippets snippets typed)).
  { unfold Source.filterSnippets. destruct (negb _); [done |].
    apply List_filter_map. intros snippet.
    apply filter_callback_without_blanks. }
  split; [exact Hfilter |]. rewrite Hfilter.
  unfold Source.convertToItems. rewrite List.map_map.
  apply map_ext. intros snippet. apply convert_callback_without_blanks.
Qed.

(** ** The Lua chunk *)

Lemma string_app_assoc (a b c : string) : (a +:+ b) +:+ c = a +:+ b +:+ c.
Proof.
  induction a as [| x a IH]; [done |].
  change (String x ((a +:+ b) +:+ c) = String x (a +:+ b +:+ c)).
  by rewrite IH.
Qed.

Lemma string_length_app (a b : string) :
  String.length (a +:+ b) = (String.length a + String.length b)%nat.
Proof.
  induction a as [| x a IH]; [done |].
  change (S (String.length (a +:+ b))
          = S (String.length a + String.length b))%nat.
  by rewrite IH.
Qed.

Lemma string_app_same_length (a a' b b' : string) :
  a +:+ b = a' +:+ b' → String.length a = String.length a' → a = a'.
Proof.
  revert a'. induction a as [| x a IH]; intros [| x' a']; try done.
  change (String x (a +:+ b) = String x' (a' +:+ b') →
          S (String.length a) = S (String.length a') →
          String x a = String x' a').
  intros [= -> Heq] [= Hlen]. f_equal. by apply IH.
Qed.

Lemma splice_twice_inj (a b c k k' : string) :
  a +:+ k +:+ b +:+ k +:+ c = a +:+ k' +:+ b +:+ k' +:+ c → k = k'.
Proof.
  intros Heq. apply (inj (String.append a)) in Heq.
  apply (string_app_same_length _ _ _ _ Heq).
  apply (f_equal String.length) in Heq.
  rewrite !string_length_app in Heq. lia.
Qed.

Lemma getSnippets_luaCode_shape :
  ∃ a b c, ∀ key,
    LuaSnipInterface.getSnippets_luaCode key = a +:+ key +:+ b +:+ key +:+ c.
Proof.
  exists
    (JS.join LuaSnipInterface.nl
       [ EmptyString;
         "        local ok, luasnip = pcall(require, 'luasnip')";
         "        if not ok then";
         "          return {}";
         "        end";
         "        ";
         "        local snippets = {}";
         "        local snip_list = luasnip.get_snippets('" ]),
    ("') or {}" +:+ LuaSnipInterface.nl +:+
     JS.join LuaSnipInterface.nl
       [ "        ";
         "        for _, snip in ipairs(snip_list) do";
         "          table.insert(snippets, {";
         "            trigger = snip.trigger or '',";
         "            name = snip.name or '',";
         "            description = snip.dscr or '',";
         "            wordTrig = snip.wordTrig,";
         "            regTrig = snip.regTrig,";
         "            filetype = '" ]),
    ("'," +:+ LuaSnipInterface.nl +:+
     JS.join LuaSnipInterface.nl
       [ "          })";
         "        end";
         "        ";
         "        return snippets";
         "      " ]).
  intros key. unfold LuaSnipInterface.getSnippets_luaCode. cbn [JS.join].
  rewrite !string_app_assoc. reflexivity.
Qed.

Lemma getSnippets_luaCode_inj (key key' : string) :
  LuaSnipInterface.getSnippets_luaCode key
  = LuaSnipInterface.getSnippets_luaCode key' →
  key = key'.
Proof.
  destruct getSnippets_luaCode_shape as (a & b & c & Hshape).
  rewrite !Hshape. apply splice_twice_inj.
Qed.

Lemma fetch_count_other_key (d : Denops) (key key' : string) :
  key' ≠ key → fetch_count key' (fetch_trace d key) = 0%nat.
Proof.
  intros Hne. unfold fetch_count, fetch_trace. cbn [List.filter].
  rewrite bool_decide_eq_false_2.
  - by destruct (denops_call d _ _).
  - intros Heq. apply Hne. symmetry. apply getSnippets_luaCode_inj.
    congruence.
Qed.

(** X24: the chunks sent for different file types differ, so the trace
    tells which key a fetch was for; and a [gather] call invokes no fetch
    for any key but its own context key. *)
Theorem gather_fetches_only_its_key (now : Z) (args : GatherArguments)
    (this : Source.t) (tr : list event) (key : string) :
  (∀ reported,
     denops_eval (denops args) "&filetype" = Ok reported →
     key ≠ context_key reported) →
  fetch_count key (trace_of (Source.gather now args this tr))
  = fetch_count key tr.
Proof.
  intros Hkey. rewrite gather_run.
  destruct (negb (Source.isInitialized this)); [done |].
  destruct (denops_eval (denops args) "&filetype") as [reported | e].
  2:{ project_run. rewrite fetch_count_app. unfold fetch_count at 2.
      simpl. lia. }
  specialize (Hkey reported eq_refl). cbn zeta.
  rewrite source_getSnippets_run.
  assert (Hquiet : fetch_count key (tr ++ [EvalExpr "&filetype"])
                   = fetch_count key tr).
  { rewrite fetch_count_app. unfold fetch_count at 2. simpl. lia. }
  assert (Hfetch : fetch_count key
                     ((tr ++ [EvalExpr "&filetype"])
                      ++ fetch_trace (denops args) (context_key reported))
                   = fetch_count key tr).
  { rewrite fetch_count_app, Hquiet, fetch_count_other_key by done. lia. }
  destruct (restricted _ _); [done |].
  destruct (enableCache _); [| done].
  by destruct (fresh_entry _ _ _).
Qed.

Lemma gather_fetches_only_its_key_witness :
  fetch_count "python"
    (trace_of
       (Source.gather 0
          (mock_args EmptyString Source.params (Ok (JArray [snippet1])))
          ready_source []))
  = fetch_count "python" [].
Proof.
  apply (gather_fetches_only_its_key 0
           (mock_args EmptyString Source.params (Ok (JArray [snippet1])))
           ready_source [] "python").
  intros reported [= <-]. discriminate.
Defined.

(** X25: [LuaSnipInterface.getSnippets] never throws and has no state of
    its own: it makes one [luaeval] call with the chunk for the file type
    and returns the bridge's array as it is; an answer that is not an
    array gives the empty array without any console line, and a bridge
    error gives the empty array and one error line. *)
Theorem interface_getSnippets_outcomes {S} (d : Denops) (key : string)
    (s : S) (tr : list event) :
  ∃ snippets new,
    LuaSnipInterface.getSnippets d key s tr
    = (Ok snippets, s,
       tr ++ Call "luaeval" (LuaSnipInterface.getSnippets_luaCode key) :: new)
    ∧ match denops_call d "luaeval" (LuaSnipInterface.getSnippets_luaCode key) with
      | Ok (JArray a) => snippets = a ∧ new = []
      | Ok _ => snippets = [] ∧ new = []
      | Throw _ => snippets = [] ∧ ∃ msg, new = [ConsoleError msg]
      end.
Proof.
  unfold LuaSnipInterface.getSnippets, try_catch, bind, call, ret, emit.
  destruct (denops_call d _ _) as [v | e].
  - exists (array_or_empty v), []. split; [done |]. by destruct v.
  - eexists [], _. rewrite <- app_assoc. split; [done |].
    split; [done |]. by eexists.
Qed.
